(** * QuickDesk front end: the dashboard and landing pages

    A shallow embedding of [src/pages/Dashboard.tsx] (component [Dashboard])
    and of the landing page (component [Index]).

    - JavaScript strings are sequences of UTF-16 code units, so that
      [String.prototype.substring] counts the units the engine counts.
    - A React component is its local state, the requests it has in flight
      and a chronological log of the effects it performed (requests issued
      to the backend client, navigations, toasts).  Every [await] splits an
      [async] function into the part that issues the request and the part
      that resumes on the response.
    - Rendering is a function of the state.  Reading a property of [null]
      throws a [TypeError] in JavaScript, so rendering lives in a small
      error monad. *)

From Stdlib Require Import String Ascii List ZArith NArith Bool Lia.
Import ListNotations.
Open Scope Z_scope.

(** ** JavaScript strings *)

Module JS.

(** A string value: its UTF-16 code units. *)
Definition jsstring := list N.

(** A string literal of the source (ASCII only in these files). *)
Definition lit (s : string) : jsstring :=
  map N_of_ascii (list_ascii_of_string s).

(** [a === b] on two strings: same units in the same order. *)
Fixpoint strict_eq (a b : jsstring) : bool :=
  match a, b with
  | [], [] => true
  | x :: a', y :: b' => N.eqb x y && strict_eq a' b'
  | _, _ => false
  end.

Definition clamp (x lo hi : Z) : Z := Z.min (Z.max x lo) hi.

(** [s.substring(start, end)] as ECMAScript defines it: both indices are
    clamped to [0, length], swapped when out of order, and the units in
    between are returned. *)
Definition substring (s : jsstring) (start end_ : Z) : jsstring :=
  let len := Z.of_nat (length s) in
  let finalStart := clamp start 0 len in
  let finalEnd := clamp end_ 0 len in
  let from := Z.min finalStart finalEnd in
  let to := Z.max finalStart finalEnd in
  firstn (Z.to_nat (to - from)) (skipn (Z.to_nat from) s).

(** Values that may be [null]: [x.p] throws on [null], [x?.p] does not. *)
Inductive result (A : Type) : Type :=
| Ok (a : A)
| TypeError.
Arguments Ok {A} a.
Arguments TypeError {A}.

Definition bind {A B} (m : result A) (k : A -> result B) : result B :=
  match m with
  | Ok a => k a
  | TypeError => TypeError
  end.

(** [x.p] *)
Definition prop {A B} (x : option A) (p : A -> B) : result B :=
  match x with
  | Some a => Ok (p a)
  | None => TypeError
  end.

(** [x?.p] : [undefined] (here [None]) when [x] is [null]. *)
Definition opt_chain {A B} (x : option A) (p : A -> B) : option B :=
  match x with
  | Some a => Some (p a)
  | None => None
  end.

(** Truthiness of an object-or-null value. *)
Definition truthy {A} (x : option A) : bool :=
  match x with
  | Some _ => true
  | None => false
  end.

(** [x === 'literal'] where [x] may be [undefined]. *)
Definition opt_strict_eq (x : option jsstring) (l : jsstring) : bool :=
  match x with
  | Some s => strict_eq s l
  | None => false
  end.

End JS.

Import JS.

Notation "x <- m ;; k" := (bind m (fun x => k))
  (at level 61, m at next level, right associativity).
Infix "===" := strict_eq (at level 69, no associativity).

(** ** Data model (the two interfaces of Dashboard.tsx) *)

Record Profile := {
  profile_id : jsstring;
  name : jsstring;
  role : jsstring          (* 'user' | 'agent' | 'admin' *)
}.

Record Category := {
  category_name : jsstring
}.

Record Ticket := {
  id : jsstring;
  subject : jsstring;
  description : jsstring;
  status : jsstring;       (* 'open' | 'in_progress' | 'resolved' | 'closed' *)
  created_at : jsstring;
  upvotes : Z;
  categories : option Category
}.

(** The object [supabase.auth.getUser()] resolves a user to; only its [id]
    is read. *)
Record User := {
  user_id : jsstring
}.

(** ** getStatusColor (Dashboard.tsx, lines 86-94) *)

Definition getStatusColor (status : jsstring) : jsstring :=
  if status === lit "open" then lit "bg-red-100 text-red-800"
  else if status === lit "in_progress" then lit "bg-yellow-100 text-yellow-800"
  else if status === lit "resolved" then lit "bg-green-100 text-green-800"
  else if status === lit "closed" then lit "bg-gray-100 text-gray-800"
  else lit "bg-gray-100 text-gray-800".

(** The closed set of status values of the [Ticket] interface. *)
Definition statuses : list jsstring :=
  [lit "open"; lit "in_progress"; lit "resolved"; lit "closed"].

(** ** The query builder of the backend client

    The calls of [supabase.from(...)] chains, recorded as the request they
    build.  [select] drops white space outside double quotes, as the client
    does before sending; [order] appends a sort key; [limit] sets the row
    limit. *)

Module Postgrest.

Record Query := {
  q_from : jsstring;
  q_select : jsstring;
  q_eq : list (jsstring * jsstring);
  q_order : list (jsstring * bool);     (* column, ascending *)
  q_limit : option Z;
  q_single : bool
}.

(** The units the regular expression [\s] matches. *)
Definition is_space (c : N) : bool :=
  (((9 <=? c) && (c <=? 13)) || (c =? 32) || (c =? 160) || (c =? 5760)
   || ((8192 <=? c) && (c <=? 8202)) || (c =? 8232) || (c =? 8233)
   || (c =? 8239) || (c =? 8287) || (c =? 12288) || (c =? 65279))%N.

Fixpoint clean_columns (quoted : bool) (cols : jsstring) : jsstring :=
  match cols with
  | [] => []
  | c :: rest =>
      if is_space c && negb quoted then clean_columns quoted rest
      else c :: clean_columns (if (c =? 34)%N then negb quoted else quoted) rest
  end.

Definition from (table : jsstring) : Query :=
  {| q_from := table; q_select := []; q_eq := []; q_order := [];
     q_limit := None; q_single := false |}.

Definition select (columns : jsstring) (q : Query) : Query :=
  {| q_from := q_from q; q_select := clean_columns false columns;
     q_eq := q_eq q; q_order := q_order q;
     q_limit := q_limit q; q_single := q_single q |}.

Definition eq (column value : jsstring) (q : Query) : Query :=
  {| q_from := q_from q; q_select := q_select q;
     q_eq := q_eq q ++ [(column, value)]; q_order := q_order q;
     q_limit := q_limit q; q_single := q_single q |}.

Definition order (column : jsstring) (ascending : bool) (q : Query) : Query :=
  {| q_from := q_from q; q_select := q_select q;
     q_eq := q_eq q; q_order := q_order q ++ [(column, ascending)];
     q_limit := q_limit q; q_single := q_single q |}.

Definition limit (count : Z) (q : Query) : Query :=
  {| q_from := q_from q; q_select := q_select q;
     q_eq := q_eq q; q_order := q_order q;
     q_limit := Some count; q_single := q_single q |}.

Definition single (q : Query) : Query :=
  {| q_from := q_from q; q_select := q_select q;
     q_eq := q_eq q; q_order := q_order q;
     q_limit := q_limit q; q_single := true |}.

(** The items of a select list: split at the commas that are not inside
    parentheses (an embedded resource keeps its own column list). *)
Fixpoint split_columns (depth : nat) (cur : jsstring) (s : jsstring)
  : list jsstring :=
  match s with
  | [] => [rev cur]
  | c :: rest =>
      if ((c =? 44)%N && Nat.eqb depth 0) then
        rev cur :: split_columns depth [] rest
      else if (c =? 40)%N then split_columns (S depth) (c :: cur) rest
      else if (c =? 41)%N then split_columns (Nat.pred depth) (c :: cur) rest
      else split_columns depth (c :: cur) rest
  end.

Definition projection (q : Query) : list jsstring :=
  split_columns 0 [] (q_select q).

End Postgrest.

Import Postgrest.

Notation "q '|>' f" := (f q) (at level 50, left associativity, only parsing).

(** The request built in [fetchTickets] (lines 60-72). *)
Definition fetchTickets_query : Query :=
  from (lit "tickets")
  |> select (lit "
        id,
        subject,
        description,
        status,
        created_at,
        upvotes,
        categories(name)
      ")
  |> order (lit "created_at") false
  |> limit 5.

(** The request built in [checkUser] (lines 49-53). *)
Definition profile_query (uid : jsstring) : Query :=
  from (lit "profiles")
  |> select (lit "*")
  |> eq (lit "id") uid
  |> single.

(** ** Rendering (the JSX of Dashboard, lines 96-210) *)

Record Tile := {
  tile_title : jsstring;
  tile_onClick : jsstring        (* argument of [navigate] *)
}.

Record RowView := {
  row_key : jsstring;
  row_onClick : jsstring;        (* argument of [navigate] *)
  row_subject : jsstring;
  row_description : jsstring;    (* text of the paragraph *)
  row_status_class : jsstring;
  row_status_text : jsstring;
  row_category : option jsstring; (* text of the outline badge, if rendered *)
  row_upvotes : Z;
  row_date_of : jsstring          (* the timestamp handed to [new Date] *)
}.

Inductive TicketsSection :=
| EmptyState (message : jsstring)
| Rows (rows : list RowView).

Record ReadyView := {
  header_name : option jsstring;   (* profile?.name *)
  header_role : option jsstring;   (* profile?.role *)
  create_tile : Tile;
  view_tile : Tile;
  admin_tile : option Tile;
  tickets_section : TicketsSection
}.

Inductive View :=
| LoadingView
| Ready (v : ReadyView).

Record State := {
  user : option User;
  profile : option Profile;
  tickets : list Ticket;
  loading : bool
}.

(** [{ticket.description.substring(0, 100)}...] *)
Definition description_text (d : jsstring) : jsstring :=
  substring d 0 100 ++ lit "...".

(** [{ticket.categories && (<Badge>{ticket.categories.name}</Badge>)}] *)
Definition category_badge (t : Ticket) : result (option jsstring) :=
  if truthy (categories t)
  then n <- prop (categories t) category_name ;; Ok (Some n)
  else Ok None.

Definition render_row (t : Ticket) : result RowView :=
  badge <- category_badge t ;;
  Ok {| row_key := id t;
        row_onClick := lit "/tickets/" ++ id t;
        row_subject := subject t;
        row_description := description_text (description t);
        row_status_class := getStatusColor (status t);
        row_status_text := status t;
        row_category := badge;
        row_upvotes := upvotes t;
        row_date_of := created_at t |}.

(** [tickets.map(...)] with a callback that may throw. *)
Fixpoint map_rows (ts : list Ticket) : result (list RowView) :=
  match ts with
  | [] => Ok []
  | t :: rest =>
      r <- render_row t ;;
      rs <- map_rows rest ;;
      Ok (r :: rs)
  end.

Definition empty_message : jsstring :=
  lit "No tickets found. Create your first ticket to get started!".

Definition render_tickets (ts : list Ticket) : result TicketsSection :=
  if Nat.eqb (length ts) 0 then Ok (EmptyState empty_message)
  else rows <- map_rows ts ;; Ok (Rows rows).

(** [(profile?.role === 'admin' || profile?.role === 'agent')] *)
Definition shows_admin (p : option Profile) : bool :=
  opt_strict_eq (opt_chain p role) (lit "admin")
  || opt_strict_eq (opt_chain p role) (lit "agent").

Definition render (s : State) : result View :=
  if loading s then Ok LoadingView
  else
    section <- render_tickets (tickets s) ;;
    Ok (Ready
          {| header_name := opt_chain (profile s) name;
             header_role := opt_chain (profile s) role;
             create_tile := {| tile_title := lit "Create Ticket";
                               tile_onClick := lit "/tickets/new" |};
             view_tile := {| tile_title := lit "View Tickets";
                             tile_onClick := lit "/tickets" |};
             admin_tile :=
               if shows_admin (profile s)
               then Some {| tile_title := lit "Admin Panel";
                            tile_onClick := lit "/admin" |}
               else None;
             tickets_section := section |}).

(** The ticket rows a view shows. *)
Definition rows_of (v : View) : list RowView :=
  match v with
  | Ready r =>
      match tickets_section r with
      | Rows rows => rows
      | EmptyState _ => []
      end
  | LoadingView => []
  end.

(** ** What the backend client resolves to *)

(** Modelled from the spec: the backend client ([@/integrations/supabase/client])
    is not among the sources.  Its session lookup resolves to
    [{ data: { user }, error }]: "session | none", where a failed resolution
    carries no user. *)
Record UserResponse := {
  data_user : option User;
  user_error : option jsstring
}.

(** Modelled from the spec: the backend client is not among the sources.  A
    query resolves to [{ data, error }]; on failure [data] is [null]. *)
Record QueryResponse (A : Type) := {
  data : option A;
  error : option jsstring
}.
Arguments data {A} _.
Arguments error {A} _.

(** Modelled from the spec: the backend client is not among the sources.
    "endSession() -> success | failure": the call resolves to [{ error }]. *)
Record SignOutResponse := {
  signOut_error : option jsstring
}.

(** A response that reports a failure. *)
Definition failed {A} (r : QueryResponse A) : Prop :=
  data r = None /\ error r <> None.

Definition user_failed (r : UserResponse) : Prop :=
  data_user r = None /\ user_error r <> None.

(** ** Effects *)

Inductive Request :=
| GetUser                 (* supabase.auth.getUser() *)
| Fetch (q : Query)       (* await of a query chain *)
| SignOut.                (* supabase.auth.signOut() *)

Inductive Effect :=
| Issue (r : Request)
| Navigate (to : jsstring)
| Toast (title description : jsstring).

Definition is_fetch (e : Effect) : bool :=
  match e with
  | Issue (Fetch _) => true
  | _ => false
  end.

Definition is_issue (e : Effect) : bool :=
  match e with
  | Issue _ => true
  | _ => false
  end.

Definition is_navigate (e : Effect) : bool :=
  match e with
  | Navigate _ => true
  | _ => false
  end.

(** ** The Dashboard component *)

Module Dashboard.

(** The mounted component: its state, the awaits that have not resumed
    yet, and the effects so far, oldest first. *)
Record Dash := {
  st : State;
  awaits_user : bool;        (* checkUser, line 40 *)
  awaits_profile : bool;     (* checkUser, line 49 *)
  awaits_tickets : bool;     (* fetchTickets, line 60 *)
  awaits_signOut : nat;      (* handleLogout, line 78: one per click *)
  log : list Effect
}.

Definition perform (e : Effect) (c : Dash) : Dash :=
  {| st := st c; awaits_user := awaits_user c;
     awaits_profile := awaits_profile c; awaits_tickets := awaits_tickets c;
     awaits_signOut := awaits_signOut c; log := log c ++ [e] |}.

Definition set_state (s : State) (c : Dash) : Dash :=
  {| st := s; awaits_user := awaits_user c;
     awaits_profile := awaits_profile c; awaits_tickets := awaits_tickets c;
     awaits_signOut := awaits_signOut c; log := log c |}.

Definition navigate (to : jsstring) : Dash -> Dash := perform (Navigate to).

Definition setUser (u : option User) (c : Dash) : Dash :=
  set_state {| user := u; profile := profile (st c);
               tickets := tickets (st c); loading := loading (st c) |} c.

Definition setProfile (p : option Profile) (c : Dash) : Dash :=
  set_state {| user := user (st c); profile := p;
               tickets := tickets (st c); loading := loading (st c) |} c.

Definition setTickets (ts : list Ticket) (c : Dash) : Dash :=
  set_state {| user := user (st c); profile := profile (st c);
               tickets := ts; loading := loading (st c) |} c.

Definition setLoading (b : bool) (c : Dash) : Dash :=
  set_state {| user := user (st c); profile := profile (st c);
               tickets := tickets (st c); loading := b |} c.

(** The four [useState] initial values (lines 27-30). *)
Definition initial : Dash :=
  {| st := {| user := None; profile := None; tickets := []; loading := true |};
     awaits_user := false; awaits_profile := false; awaits_tickets := false;
     awaits_signOut := 0; log := [] |}.

(** *** checkUser (lines 39-57) *)

(** Up to the first [await]. *)
Definition checkUser (c : Dash) : Dash :=
  let c := perform (Issue GetUser) c in
  {| st := st c; awaits_user := true;
     awaits_profile := awaits_profile c; awaits_tickets := awaits_tickets c;
     awaits_signOut := awaits_signOut c; log := log c |}.

(** From the first [await] to the second, or to the early [return]. *)
Definition checkUser_user (r : UserResponse) (c : Dash) : Dash :=
  let c := {| st := st c; awaits_user := false;
              awaits_profile := awaits_profile c;
              awaits_tickets := awaits_tickets c;
              awaits_signOut := awaits_signOut c; log := log c |} in
  match data_user r with
  | None => navigate (lit "/login") c
  | Some u =>
      let c := setUser (Some u) c in
      let c := perform (Issue (Fetch (profile_query (user_id u)))) c in
      {| st := st c; awaits_user := awaits_user c;
         awaits_profile := true; awaits_tickets := awaits_tickets c;
         awaits_signOut := awaits_signOut c; log := log c |}
  end.

(** After the second [await]. *)
Definition checkUser_profile (r : QueryResponse Profile) (c : Dash) : Dash :=
  let c := {| st := st c; awaits_user := awaits_user c;
              awaits_profile := false;
              awaits_tickets := awaits_tickets c;
              awaits_signOut := awaits_signOut c; log := log c |} in
  setLoading false (setProfile (data r) c).

(** *** fetchTickets (lines 59-75) *)

Definition fetchTickets (c : Dash) : Dash :=
  let c := perform (Issue (Fetch fetchTickets_query)) c in
  {| st := st c; awaits_user := awaits_user c;
     awaits_profile := awaits_profile c; awaits_tickets := true;
     awaits_signOut := awaits_signOut c; log := log c |}.

(** [data || []] *)
Definition or_empty (d : option (list Ticket)) : list Ticket :=
  match d with
  | Some ts => ts
  | None => []
  end.

Definition fetchTickets_data (r : QueryResponse (list Ticket)) (c : Dash)
  : Dash :=
  let c := {| st := st c; awaits_user := awaits_user c;
              awaits_profile := awaits_profile c;
              awaits_tickets := false;
              awaits_signOut := awaits_signOut c; log := log c |} in
  setTickets (or_empty (data r)) c.

(** *** handleLogout (lines 77-84) *)

Definition handleLogout (c : Dash) : Dash :=
  let c := perform (Issue SignOut) c in
  {| st := st c; awaits_user := awaits_user c;
     awaits_profile := awaits_profile c; awaits_tickets := awaits_tickets c;
     awaits_signOut := S (awaits_signOut c); log := log c |}.

Definition handleLogout_done (r : SignOutResponse) (c : Dash) : Dash :=
  let c := {| st := st c; awaits_user := awaits_user c;
              awaits_profile := awaits_profile c;
              awaits_tickets := awaits_tickets c;
              awaits_signOut := Nat.pred (awaits_signOut c); log := log c |} in
  let c := navigate (lit "/login") c in
  perform (Toast (lit "Logged out")
                 (lit "You have been logged out successfully")) c.

(** *** The mount effect (lines 34-37) *)

Definition mount : Dash := fetchTickets (checkUser initial).

(** *** Events *)

Inductive Event :=
| UserResolved (r : UserResponse)
| ProfileResolved (r : QueryResponse Profile)
| TicketsResolved (r : QueryResponse (list Ticket))
| SignOutResolved (r : SignOutResponse)
| ClickLogout
| ClickCreateTicket
| ClickViewTickets
| ClickAdminPanel
| ClickTicket (i : nat).

(** What is on screen to be clicked. *)
Definition ready_view (c : Dash) : option ReadyView :=
  match render (st c) with
  | Ok (Ready v) => Some v
  | _ => None
  end.

(** One event.  A response is possible only for an await in flight, a
    click only on an element that is rendered; [None] otherwise. *)
Definition step (c : Dash) (e : Event) : option Dash :=
  match e with
  | UserResolved r =>
      if awaits_user c then Some (checkUser_user r c) else None
  | ProfileResolved r =>
      if awaits_profile c then Some (checkUser_profile r c) else None
  | TicketsResolved r =>
      if awaits_tickets c then Some (fetchTickets_data r c) else None
  | SignOutResolved r =>
      if Nat.ltb 0 (awaits_signOut c) then Some (handleLogout_done r c)
      else None
  | ClickLogout =>
      match ready_view c with
      | Some _ => Some (handleLogout c)
      | None => None
      end
  | ClickCreateTicket =>
      match ready_view c with
      | Some v => Some (navigate (tile_onClick (create_tile v)) c)
      | None => None
      end
  | ClickViewTickets =>
      match ready_view c with
      | Some v => Some (navigate (tile_onClick (view_tile v)) c)
      | None => None
      end
  | ClickAdminPanel =>
      match ready_view c with
      | Some v =>
          match admin_tile v with
          | Some t => Some (navigate (tile_onClick t) c)
          | None => None
          end
      | None => None
      end
  | ClickTicket i =>
      match nth_error (match ready_view c with
                       | Some v => rows_of (Ready v)
                       | None => []
                       end) i with
      | Some r => Some (navigate (row_onClick r) c)
      | None => None
      end
  end.

Fixpoint run (c : Dash) (es : list Event) : option Dash :=
  match es with
  | [] => Some c
  | e :: rest =>
      match step c e with
      | Some c' => run c' rest
      | None => None
      end
  end.

End Dashboard.

(** ** The landing component (Index) *)

Module Index.

Record Landing := {
  awaits_user : bool;
  log : list Effect
}.

Inductive IndexView :=
| PublicContent.

(** The component has no state: it returns the same JSX on every render. *)
Definition render (c : Landing) : IndexView := PublicContent.

Definition navigate (to : jsstring) (c : Landing) : Landing :=
  {| awaits_user := awaits_user c; log := log c ++ [Navigate to] |}.

(** [checkUser] of the mount effect (lines 11-20), up to its [await]. *)
Definition mount : Landing :=
  {| awaits_user := true; log := [Issue GetUser] |}.

(** ... and after it. *)
Definition checkUser_user (r : UserResponse) (c : Landing) : Landing :=
  let c := {| awaits_user := false; log := log c |} in
  if truthy (data_user r) then navigate (lit "/dashboard") c else c.

Inductive Event :=
| UserResolved (r : UserResponse)
| ClickSignIn            (* header and hero "Sign In" *)
| ClickRegister.         (* "Get Started" and "Start Free Trial" *)

Definition is_click (e : Event) : bool :=
  match e with
  | UserResolved _ => false
  | _ => true
  end.

Definition step (c : Landing) (e : Event) : option Landing :=
  match e with
  | UserResolved r =>
      if awaits_user c then Some (checkUser_user r c) else None
  | ClickSignIn => Some (navigate (lit "/login") c)
  | ClickRegister => Some (navigate (lit "/register") c)
  end.

Fixpoint run (c : Landing) (es : list Event) : option Landing :=
  match es with
  | [] => Some c
  | e :: rest =>
      match step c e with
      | Some c' => run c' rest
      | None => None
      end
  end.

End Index.

(** ** Specification-side definitions *)

(** The row a ticket is shown as. *)
Definition row_of (t : Ticket) : RowView :=
  {| row_key := id t;
     row_onClick := lit "/tickets/" ++ id t;
     row_subject := subject t;
     row_description := description_text (description t);
     row_status_class := getStatusColor (status t);
     row_status_text := status t;
     row_category := opt_chain (categories t) category_name;
     row_upvotes := upvotes t;
     row_date_of := created_at t |}.

(** The dashboard between mount and the resolution of the session check. *)
Definition unresolved (c : Dashboard.Dash) : Prop :=
  Dashboard.awaits_user c = true /\
  Dashboard.awaits_profile c = false /\
  Dashboard.awaits_signOut c = 0%nat /\
  loading (Dashboard.st c) = true /\
  Dashboard.log c = [Issue GetUser; Issue (Fetch fetchTickets_query)].

(** The dashboard after the session check found no session. *)
Definition gated (c : Dashboard.Dash) : Prop :=
  Dashboard.awaits_user c = false /\
  Dashboard.awaits_profile c = false /\
  Dashboard.awaits_signOut c = 0%nat /\
  loading (Dashboard.st c) = true /\
  Dashboard.log c = [Issue GetUser; Issue (Fetch fetchTickets_query);
                     Navigate (lit "/login")].

(** A dashboard on which the profile of an agent has been resolved and two
    tickets have arrived, one of them without a category. *)
Definition sample_tickets : list Ticket :=
  [ {| id := lit "t2"; subject := lit "Printer"; description := lit "Jammed";
       status := lit "open"; created_at := lit "2024-05-02T10:00:00Z";
       upvotes := 3; categories := Some {| category_name := lit "Hardware" |} |};
    {| id := lit "t1"; subject := lit "VPN"; description := [];
       status := lit "archived"; created_at := lit "2024-05-01T10:00:00Z";
       upvotes := 0; categories := None |} ].

Definition sample_events : list Dashboard.Event :=
  [ Dashboard.UserResolved
      {| data_user := Some {| user_id := lit "u1" |}; user_error := None |};
    Dashboard.TicketsResolved {| data := Some sample_tickets; error := None |};
    Dashboard.ProfileResolved
      {| data := Some {| profile_id := lit "u1"; name := lit "Ada";
                         role := lit "agent" |};
         error := None |} ].

Definition sample_state : State :=
  {| user := Some {| user_id := lit "u1" |};
     profile := Some {| profile_id := lit "u1"; name := lit "Ada";
                        role := lit "agent" |};
     tickets := sample_tickets;
     loading := false |}.

(** The configuration the sample events lead to from mount. *)
Definition sample_dash : Dashboard.Dash :=
  match Dashboard.run Dashboard.mount sample_events with
  | Some c => c
  | None => Dashboard.mount
  end.

(** Six copies of one ticket: more than the request's limit, all with the
    same key. *)
Definition six_tickets : list Ticket :=
  repeat {| id := lit "t9"; subject := lit "Mail"; description := lit "Bounces";
            status := lit "closed"; created_at := lit "2024-05-03T10:00:00Z";
            upvotes := 1; categories := None |} 6.

Definition six_state : State :=
  {| user := None; profile := None; tickets := six_tickets; loading := false |}.

Definition no_session : UserResponse :=
  {| data_user := None; user_error := None |}.

Definition network_error : jsstring := lit "Failed to fetch".

(** ** Well-formed UTF-16 *)

Definition is_high_surrogate (c : N) : bool :=
  ((55296 <=? c) && (c <=? 56319))%N.

Definition is_low_surrogate (c : N) : bool :=
  ((56320 <=? c) && (c <=? 57343))%N.

(** Every high surrogate is directly followed by a low one, and no low
    surrogate stands alone. *)
Fixpoint well_formed (s : jsstring) : bool :=
  match s with
  | [] => true
  | c :: rest =>
      if is_high_surrogate c then
        match rest with
        | lo :: rest' => is_low_surrogate lo && well_formed rest'
        | [] => false
        end
      else if is_low_surrogate c then false
      else well_formed rest
  end.

(** A description of 101 units whose last two units are one character
    (U+1F600). *)
Definition emoji_description : jsstring :=
  repeat 97%N 99 ++ [55357%N; 56832%N].

(** ** The dashboard's transitions, as a relation *)

Inductive Transition (c : Dashboard.Dash) : Dashboard.Event -> Dashboard.Dash -> Prop :=
| T_user r :
    Dashboard.awaits_user c = true ->
    Transition c (Dashboard.UserResolved r) (Dashboard.checkUser_user r c)
| T_profile r :
    Dashboard.awaits_profile c = true ->
    Transition c (Dashboard.ProfileResolved r) (Dashboard.checkUser_profile r c)
| T_tickets r :
    Dashboard.awaits_tickets c = true ->
    Transition c (Dashboard.TicketsResolved r) (Dashboard.fetchTickets_data r c)
| T_signOut r :
    Dashboard.awaits_signOut c <> 0%nat ->
    Transition c (Dashboard.SignOutResolved r) (Dashboard.handleLogout_done r c)
| T_logout :
    loading (Dashboard.st c) = false ->
    Transition c Dashboard.ClickLogout (Dashboard.handleLogout c)
| T_create :
    loading (Dashboard.st c) = false ->
    Transition c Dashboard.ClickCreateTicket
               (Dashboard.navigate (lit "/tickets/new") c)
| T_view :
    loading (Dashboard.st c) = false ->
    Transition c Dashboard.ClickViewTickets
               (Dashboard.navigate (lit "/tickets") c)
| T_admin :
    loading (Dashboard.st c) = false ->
    shows_admin (profile (Dashboard.st c)) = true ->
    Transition c Dashboard.ClickAdminPanel
               (Dashboard.navigate (lit "/admin") c)
| T_ticket i t :
    loading (Dashboard.st c) = false ->
    nth_error (tickets (Dashboard.st c)) i = Some t ->
    Transition c (Dashboard.ClickTicket i)
               (Dashboard.navigate (lit "/tickets/" ++ id t) c).

(** The requests that load data: everything but the sign-out call. *)
Definition is_load (e : Effect) : bool :=
  match e with
  | Issue GetUser | Issue (Fetch _) => true
  | _ => false
  end.

Definition is_signOut (e : Effect) : bool :=
  match e with
  | Issue SignOut => true
  | _ => false
  end.

Definition is_toast (e : Effect) : bool :=
  match e with
  | Toast _ _ => true
  | _ => false
  end.

(** The first ticket response, and the first profile response, of a run. *)
Fixpoint first_tickets (es : list Dashboard.Event)
  : option (QueryResponse (list Ticket)) :=
  match es with
  | [] => None
  | Dashboard.TicketsResolved r :: _ => Some r
  | _ :: rest => first_tickets rest
  end.

Fixpoint first_profile (es : list Dashboard.Event)
  : option (QueryResponse Profile) :=
  match es with
  | [] => None
  | Dashboard.ProfileResolved r :: _ => Some r
  | _ :: rest => first_profile rest
  end.

(** ** The landing page's effects, event by event *)

Definition index_effects_of (e : Index.Event) : list Effect :=
  match e with
  | Index.UserResolved r =>
      if truthy (data_user r) then [Navigate (lit "/dashboard")] else []
  | Index.ClickSignIn => [Navigate (lit "/login")]
  | Index.ClickRegister => [Navigate (lit "/register")]
  end.

(** How many session responses a list of events holds. *)
Definition index_resolutions (es : list Index.Event) : nat :=
  length (filter (fun e => negb (Index.is_click e)) es).

(** ** Invariants of the dashboard *)

(** Where the session check stands, against what the state holds. *)
Definition phase_inv (c : Dashboard.Dash) : Prop :=
  (Dashboard.awaits_user c = true ->
   Dashboard.awaits_profile c = false /\ loading (Dashboard.st c) = true /\
   user (Dashboard.st c) = None /\ profile (Dashboard.st c) = None) /\
  (Dashboard.awaits_profile c = true ->
   Dashboard.awaits_user c = false /\ loading (Dashboard.st c) = true /\
   user (Dashboard.st c) <> None /\ profile (Dashboard.st c) = None) /\
  (loading (Dashboard.st c) = false ->
   Dashboard.awaits_user c = false /\ Dashboard.awaits_profile c = false /\
   user (Dashboard.st c) <> None) /\
  (user (Dashboard.st c) = None ->
   loading (Dashboard.st c) = true /\ profile (Dashboard.st c) = None).

(** The data requests sent so far, against the user the state holds. *)
Definition loads_inv (c : Dashboard.Dash) : Prop :=
  (Dashboard.awaits_user c = true -> user (Dashboard.st c) = None) /\
  filter is_load (Dashboard.log c) =
    Issue GetUser :: Issue (Fetch fetchTickets_query) ::
    match user (Dashboard.st c) with
    | Some u => [Issue (Fetch (profile_query (user_id u)))]
    | None => []
    end.

Definition admin_inv (c : Dashboard.Dash) : Prop :=
  In (Navigate (lit "/admin")) (Dashboard.log c) ->
  loading (Dashboard.st c) = false /\
  shows_admin (profile (Dashboard.st c)) = true.

Definition signOut_inv (c : Dashboard.Dash) : Prop :=
  length (filter is_signOut (Dashboard.log c)) =
  (Dashboard.awaits_signOut c + length (filter is_toast (Dashboard.log c)))%nat.

(** Runs that continue the sample events with clicks. *)
Definition sample_admin_events : list Dashboard.Event :=
  sample_events ++ [Dashboard.ClickAdminPanel].

Definition sample_admin_dash : Dashboard.Dash :=
  match Dashboard.run Dashboard.mount sample_admin_events with
  | Some c => c
  | None => Dashboard.mount
  end.

Definition sample_logout_events : list Dashboard.Event :=
  sample_events ++
  [Dashboard.ClickLogout; Dashboard.ClickLogout;
   Dashboard.SignOutResolved {| signOut_error := None |}].

Definition sample_logout_dash : Dashboard.Dash :=
  match Dashboard.run Dashboard.mount sample_logout_events with
  | Some c => c
  | None => Dashboard.mount
  end.

(** A ticket whose id is the string "new". *)
Definition ticket_named_new : Ticket :=
  {| id := lit "new"; subject := lit "Badge"; description := [];
     status := lit "open"; created_at := lit "2024-05-04T10:00:00Z";
     upvotes := 0; categories := None |}.

(** The destinations the dashboard can navigate to without a ticket. *)
Definition fixed_routes : list jsstring :=
  [lit "/login"; lit "/tickets/new"; lit "/tickets"; lit "/admin"].

Definition routes_inv (c : Dashboard.Dash) : Prop :=
  (Dashboard.awaits_tickets c = true -> tickets (Dashboard.st c) = []) /\
  forall to, In (Navigate to) (Dashboard.log c) ->
             In to fixed_routes \/
             exists t, In t (tickets (Dashboard.st c)) /\
                       to = lit "/tickets/" ++ id t.

(** * Properties *)

(** ** Strings *)

Lemma strict_eq_true (a b : jsstring) : a === b = true <-> a = b.
Proof.
  revert b; induction a as [|x a IH]; intros [|y b]; simpl; split;
    try congruence; try reflexivity.
  - intros H. apply andb_true_iff in H as [Hx Hab].
    apply N.eqb_eq in Hx. apply IH in Hab. congruence.
  - intros H. injection H as -> ->. rewrite N.eqb_refl. simpl.
    apply IH. reflexivity.
Qed.

Lemma strict_eq_false (a b : jsstring) : a === b = false <-> a <> b.
Proof.
  rewrite <- strict_eq_true. destruct (a === b); split; congruence.
Qed.

Lemma substring_0_100 (d : jsstring) : substring d 0 100 = firstn 100 d.
Proof.
  unfold substring, clamp.
  set (len := Z.of_nat (length d)).
  assert (Hlen : 0 <= len) by (unfold len; lia).
  replace (Z.min (Z.min (Z.max 0 0) len) (Z.min (Z.max 100 0) len))
    with 0 by lia.
  replace (Z.max (Z.min (Z.max 0 0) len) (Z.min (Z.max 100 0) len))
    with (Z.min 100 len) by lia.
  simpl skipn. rewrite Z.sub_0_r.
  destruct (Z.le_ge_cases 100 len) as [H|H].
  - rewrite Z.min_l by lia. reflexivity.
  - rewrite Z.min_r by lia. unfold len. rewrite Nat2Z.id.
    rewrite firstn_all. symmetry. apply firstn_all2. unfold len in H. lia.
Qed.

Lemma firstn_min_length {A} (n : nat) (l : list A) :
  firstn (Nat.min n (length l)) l = firstn n l.
Proof.
  destruct (Nat.le_ge_cases n (length l)) as [H|H].
  - rewrite Nat.min_l by exact H. reflexivity.
  - rewrite Nat.min_r by exact H. rewrite firstn_all.
    symmetry. apply firstn_all2. exact H.
Qed.

(** ** Rendering never throws *)

Lemma render_row_ok (t : Ticket) : render_row t = Ok (row_of t).
Proof.
  unfold render_row, category_badge, row_of.
  destruct (categories t) as [c|]; reflexivity.
Qed.

Lemma map_rows_ok (ts : list Ticket) : map_rows ts = Ok (map row_of ts).
Proof.
  induction ts as [|t ts IH]; simpl.
  - reflexivity.
  - rewrite render_row_ok, IH. reflexivity.
Qed.

Lemma render_tickets_ok (ts : list Ticket) :
  render_tickets ts =
  Ok (match ts with
      | [] => EmptyState empty_message
      | _ :: _ => Rows (map row_of ts)
      end).
Proof.
  unfold render_tickets. destruct ts as [|t ts].
  - reflexivity.
  - simpl length. simpl Nat.eqb. rewrite map_rows_ok. reflexivity.
Qed.

Lemma render_loading (s : State) : loading s = true -> render s = Ok LoadingView.
Proof. intros H. unfold render. rewrite H. reflexivity. Qed.

Lemma render_ready (s : State) :
  loading s = false ->
  exists v,
    render s = Ok (Ready v) /\
    header_name v = opt_chain (profile s) name /\
    header_role v = opt_chain (profile s) role /\
    admin_tile v = (if shows_admin (profile s)
                    then Some {| tile_title := lit "Admin Panel";
                                 tile_onClick := lit "/admin" |}
                    else None) /\
    tickets_section v = match tickets s with
                        | [] => EmptyState empty_message
                        | _ :: _ => Rows (map row_of (tickets s))
                        end.
Proof.
  intros H. unfold render. rewrite H, render_tickets_ok. simpl.
  eexists. split; [reflexivity|]. simpl. repeat split.
Qed.

Lemma render_total (s : State) : exists v, render s = Ok v.
Proof.
  destruct (loading s) eqn:H.
  - exists LoadingView. apply render_loading, H.
  - destruct (render_ready s H) as [v [Hv _]]. exists (Ready v). exact Hv.
Qed.

(** ** Status styling *)

(** C1. [getStatusColor] is a total function of its argument alone: each of
    'open', 'in_progress', 'resolved' and 'closed' has its own fixed,
    non-empty class string, and every other string gets the class string
    of 'closed'. *)
Theorem getStatusColor_total :
  getStatusColor (lit "open") = lit "bg-red-100 text-red-800" /\
  getStatusColor (lit "in_progress") = lit "bg-yellow-100 text-yellow-800" /\
  getStatusColor (lit "resolved") = lit "bg-green-100 text-green-800" /\
  getStatusColor (lit "closed") = lit "bg-gray-100 text-gray-800" /\
  (forall s, In s statuses -> getStatusColor s <> []) /\
  (forall s, ~ In s statuses ->
             getStatusColor s = getStatusColor (lit "closed")).
Proof.
  repeat split; try reflexivity.
  - intros s Hin. unfold statuses in Hin. simpl in Hin.
    destruct Hin as [<-|[<-|[<-|[<-|[]]]]]; vm_compute; discriminate.
  - intros s Hout. unfold statuses in Hout. simpl in Hout.
    unfold getStatusColor at 1.
    destruct (s === lit "open") eqn:E1.
    { apply strict_eq_true in E1. exfalso. apply Hout. auto. }
    destruct (s === lit "in_progress") eqn:E2.
    { apply strict_eq_true in E2. exfalso. apply Hout. auto. }
    destruct (s === lit "resolved") eqn:E3.
    { apply strict_eq_true in E3. exfalso. apply Hout. auto. }
    destruct (s === lit "closed"); reflexivity.
Qed.

Lemma getStatusColor_total_witness :
  getStatusColor (lit "open") <> [] /\
  getStatusColor (lit "archived") = getStatusColor (lit "closed").
Proof.
  split.
  - apply (proj1 (proj2 (proj2 (proj2 (proj2 getStatusColor_total))))).
    simpl. auto.
  - apply (proj2 (proj2 (proj2 (proj2 (proj2 getStatusColor_total))))).
    vm_compute. intros H. repeat (destruct H as [H|H]; [discriminate H|]).
    exact H.
Defined.

(** ** Description truncation *)

(** C2. For every description, the text shown is its first
    [min(100, length)] code units followed by the three-unit marker "...";
    the marker is there for the empty string and for every description of at
    most 100 units too, where the whole description precedes it. *)
Theorem description_text_prefix (d : jsstring) :
  description_text d = firstn (Nat.min 100 (length d)) d ++ lit "..." /\
  length (description_text d) = (Nat.min 100 (length d) + 3)%nat /\
  ((length d <= 100)%nat -> description_text d = d ++ lit "...") /\
  description_text [] = lit "..." /\
  (forall t, description t = d ->
             exists r, render_row t = Ok r /\
                       row_description r = description_text d).
Proof.
  assert (E : description_text d = firstn 100 d ++ lit "...").
  { unfold description_text. rewrite substring_0_100. reflexivity. }
  split; [|split; [|split; [|split]]].
  - rewrite E, firstn_min_length. reflexivity.
  - rewrite E, length_app, length_firstn. reflexivity.
  - intros H. rewrite E, firstn_all2 by exact H. reflexivity.
  - reflexivity.
  - intros t Ht. exists (row_of t). split; [apply render_row_ok|].
    simpl. rewrite Ht. reflexivity.
Qed.

Lemma description_text_prefix_witness :
  description_text (lit "Jammed") = lit "Jammed..." /\
  exists r,
    render_row {| id := lit "t1"; subject := lit "VPN"; description := [];
                  status := lit "open"; created_at := []; upvotes := 0;
                  categories := None |} = Ok r /\
    row_description r = description_text [].
Proof.
  split.
  - apply (proj1 (proj2 (proj2 (description_text_prefix (lit "Jammed"))))).
    simpl. lia.
  - apply (proj2 (proj2 (proj2 (proj2 (description_text_prefix []))))).
    reflexivity.
Defined.

(** ** The role-gated tile *)

Lemma shows_admin_iff (p : option Profile) :
  shows_admin p = true <->
  exists pr, p = Some pr /\ (role pr = lit "admin" \/ role pr = lit "agent").
Proof.
  unfold shows_admin. destruct p as [pr|]; simpl.
  - rewrite orb_true_iff, !strict_eq_true. split.
    + intros H. exists pr. split; [reflexivity | exact H].
    + intros [pr' [E H]]. injection E as <-. exact H.
  - split; [discriminate|]. intros [pr [E _]]. discriminate E.
Qed.

(** C3. Once the dashboard is past its loading screen, the "Admin Panel"
    tile is rendered if and only if a profile is present and its role is
    'admin' or 'agent'.  Case by case: no tile without a profile, no tile
    for 'user', the tile for 'admin' and for 'agent'. *)
Theorem admin_tile_iff_role (s : State) :
  loading s = false ->
  exists v,
    render s = Ok (Ready v) /\
    (admin_tile v <> None <->
     exists p, profile s = Some p /\
               (role p = lit "admin" \/ role p = lit "agent")) /\
    (profile s = None -> admin_tile v = None) /\
    (forall p, profile s = Some p -> role p = lit "user" ->
               admin_tile v = None) /\
    (forall p, profile s = Some p -> role p = lit "admin" ->
               admin_tile v <> None) /\
    (forall p, profile s = Some p -> role p = lit "agent" ->
               admin_tile v <> None).
Proof.
  intros Hl. destruct (render_ready s Hl) as [v [Hv [_ [_ [Ht _]]]]].
  exists v. split; [exact Hv|].
  assert (Hiff : admin_tile v <> None <-> shows_admin (profile s) = true).
  { rewrite Ht. destruct (shows_admin (profile s)); split;
      congruence || discriminate. }
  split; [rewrite Hiff; apply shows_admin_iff|].
  repeat split.
  - intros Hp. rewrite Ht, Hp. reflexivity.
  - intros p Hp Hr. rewrite Ht, Hp. unfold shows_admin. simpl.
    rewrite Hr. reflexivity.
  - intros p Hp Hr. apply Hiff, shows_admin_iff. eauto.
  - intros p Hp Hr. apply Hiff, shows_admin_iff. eauto.
Qed.

Lemma admin_tile_iff_role_witness :
  loading sample_state = false /\
  exists v,
    render sample_state = Ok (Ready v) /\
    (admin_tile v <> None <->
     exists p, profile sample_state = Some p /\
               (role p = lit "admin" \/ role p = lit "agent")) /\
    (profile sample_state = None -> admin_tile v = None) /\
    (forall p, profile sample_state = Some p -> role p = lit "user" ->
               admin_tile v = None) /\
    (forall p, profile sample_state = Some p -> role p = lit "admin" ->
               admin_tile v <> None) /\
    (forall p, profile sample_state = Some p -> role p = lit "agent" ->
               admin_tile v <> None).
Proof.
  split; [reflexivity|]. apply (admin_tile_iff_role sample_state). reflexivity.
Defined.

(** ** The ticket request and the category badge *)

(** C5. [fetchTickets] asks the "tickets" table for the columns id, subject,
    description, status, created_at, upvotes and the name of the related
    category, newest first, five rows at most, and that is the only query the
    mount effect sends.  A ticket without a category is rendered without a
    category badge; one with a category shows that category's name. *)
Theorem fetchTickets_request :
  q_from fetchTickets_query = lit "tickets" /\
  projection fetchTickets_query =
    [lit "id"; lit "subject"; lit "description"; lit "status";
     lit "created_at"; lit "upvotes"; lit "categories(name)"] /\
  q_order fetchTickets_query = [(lit "created_at", false)] /\
  q_limit fetchTickets_query = Some 5 /\
  q_eq fetchTickets_query = [] /\
  filter is_fetch (Dashboard.log Dashboard.mount) =
    [Issue (Fetch fetchTickets_query)] /\
  (forall t, categories t = None ->
             exists r, render_row t = Ok r /\ row_category r = None) /\
  (forall t c, categories t = Some c ->
               exists r, render_row t = Ok r /\
                         row_category r = Some (category_name c)).
Proof.
  repeat split; try (vm_compute; reflexivity).
  - intros t Ht. exists (row_of t). split; [apply render_row_ok|].
    simpl. rewrite Ht. reflexivity.
  - intros t c Ht. exists (row_of t). split; [apply render_row_ok|].
    simpl. rewrite Ht. reflexivity.
Qed.

Lemma fetchTickets_request_witness :
  (exists r, render_row {| id := lit "t1"; subject := lit "VPN";
                           description := []; status := lit "open";
                           created_at := []; upvotes := 0;
                           categories := None |} = Ok r /\
             row_category r = None) /\
  (exists r, render_row {| id := lit "t2"; subject := lit "Printer";
                           description := []; status := lit "open";
                           created_at := []; upvotes := 0;
                           categories :=
                             Some {| category_name := lit "Hardware" |} |}
             = Ok r /\
             row_category r = Some (lit "Hardware")).
Proof.
  destruct fetchTickets_request as [_ [_ [_ [_ [_ [_ [Hnone Hsome]]]]]]].
  split.
  - apply Hnone. reflexivity.
  - apply (Hsome _ {| category_name := lit "Hardware" |}). reflexivity.
Defined.

(** ** The ticket section *)

(** C8. Past the loading screen, an empty ticket list is rendered as the
    message "No tickets found. Create your first ticket to get started!"
    and no ticket row, and what is rendered then differs from what any
    loading state renders. *)
Theorem empty_state_message (s : State) :
  loading s = false ->
  tickets s = [] ->
  exists v,
    render s = Ok (Ready v) /\
    tickets_section v = EmptyState empty_message /\
    empty_message <> [] /\
    rows_of (Ready v) = [] /\
    (forall s', loading s' = true -> render s' <> render s).
Proof.
  intros Hl Ht. destruct (render_ready s Hl) as [v [Hv [_ [_ [_ Hs]]]]].
  rewrite Ht in Hs. exists v. repeat split.
  - exact Hv.
  - exact Hs.
  - discriminate.
  - simpl. rewrite Hs. reflexivity.
  - intros s' Hl'. rewrite Hv, (render_loading s' Hl'). discriminate.
Qed.

Lemma empty_state_message_witness :
  exists v,
    render {| user := None; profile := None; tickets := [];
              loading := false |} = Ok (Ready v) /\
    tickets_section v = EmptyState empty_message /\
    empty_message <> [] /\
    rows_of (Ready v) = [] /\
    (forall s', loading s' = true ->
                render s' <> render {| user := None; profile := None;
                                       tickets := []; loading := false |}).
Proof.
  apply (empty_state_message
           {| user := None; profile := None; tickets := [];
              loading := false |}); reflexivity.
Defined.

(** C10. Past the loading screen, a non-empty ticket list is rendered row
    for row: the rows are the tickets' rows in the list's order, as many as
    there are tickets, with the tickets' keys, whatever the length of the
    list and whether or not tickets repeat.  The component stores whatever
    list the fetch resolves to, so the limit of five lives in the request
    alone. *)
Theorem ticket_rows_pass_through :
  (forall s, loading s = false -> tickets s <> [] ->
     exists v,
       render s = Ok (Ready v) /\
       tickets_section v = Rows (map row_of (tickets s)) /\
       length (rows_of (Ready v)) = length (tickets s) /\
       map row_key (rows_of (Ready v)) = map id (tickets s) /\
       (forall i, nth_error (rows_of (Ready v)) i =
                  option_map row_of (nth_error (tickets s) i))) /\
  (forall c ts e, Dashboard.awaits_tickets c = true ->
     exists c',
       Dashboard.step c (Dashboard.TicketsResolved
                           {| data := Some ts; error := e |}) = Some c' /\
       tickets (Dashboard.st c') = ts).
Proof.
  split.
  - intros s Hl Hne. destruct (render_ready s Hl) as [v [Hv [_ [_ [_ Hs]]]]].
    destruct (tickets s) as [|t ts] eqn:Ets; [congruence|].
    exists v. split; [exact Hv|]. split; [exact Hs|].
    assert (Hrows : rows_of (Ready v) = map row_of (t :: ts)).
    { simpl rows_of. rewrite Hs. reflexivity. }
    rewrite Hrows. repeat split.
    + apply length_map.
    + rewrite map_map. reflexivity.
    + intros i. apply nth_error_map.
  - intros c ts e Ha. eexists. simpl. rewrite Ha. split; reflexivity.
Qed.

Lemma ticket_rows_pass_through_witness :
  (exists v, render six_state = Ok (Ready v) /\
             length (rows_of (Ready v)) = 6%nat) /\
  (exists c',
     Dashboard.step Dashboard.mount
       (Dashboard.TicketsResolved {| data := Some six_tickets; error := None |})
     = Some c' /\
     tickets (Dashboard.st c') = six_tickets).
Proof.
  destruct ticket_rows_pass_through as [Hrender Hstore].
  split.
  - destruct (Hrender six_state) as [v [Hv [_ [Hlen _]]]];
      [reflexivity | discriminate |].
    exists v. split; [exact Hv | exact Hlen].
  - apply Hstore. reflexivity.
Defined.

(** ** Runs of the dashboard *)

Section DashboardRuns.

Import Dashboard.

Lemma loading_no_view (c : Dash) :
  loading (st c) = true -> ready_view c = None.
Proof.
  intros H. unfold ready_view. rewrite (render_loading _ H). reflexivity.
Qed.

Lemma ready_has_view (c : Dash) :
  loading (st c) = false -> exists v, ready_view c = Some v.
Proof.
  intros H. destruct (render_ready _ H) as [v [Hv _]].
  exists v. unfold ready_view. rewrite Hv. reflexivity.
Qed.

(** No click is possible on the loading screen. *)
Lemma loading_step (c c' : Dash) (e : Event) :
  loading (st c) = true ->
  step c e = Some c' ->
  match e with
  | UserResolved _ | ProfileResolved _ | TicketsResolved _
  | SignOutResolved _ => True
  | _ => False
  end.
Proof.
  intros Hl Hs. destruct e; simpl in Hs; try exact I;
    rewrite (loading_no_view c Hl) in Hs; simpl in Hs;
    try discriminate Hs.
  destruct i; discriminate Hs.
Qed.

Lemma gated_step (c c' : Dash) (e : Event) :
  gated c -> step c e = Some c' -> gated c'.
Proof.
  intros G Hs. pose proof G as [Hu [Hp [Ho [Hl Hlog]]]].
  pose proof (loading_step c c' e Hl Hs) as He.
  destruct e; try contradiction; simpl in Hs.
  - rewrite Hu in Hs. discriminate Hs.
  - rewrite Hp in Hs. discriminate Hs.
  - destruct (awaits_tickets c); [|discriminate Hs].
    injection Hs as <-. repeat split; assumption.
  - rewrite Ho in Hs. discriminate Hs.
Qed.

Lemma gated_run (es : list Event) (c c' : Dash) :
  gated c -> run c es = Some c' -> gated c'.
Proof.
  revert c. induction es as [|e es IH]; intros c G Hr; simpl in Hr.
  - injection Hr as <-. exact G.
  - destruct (step c e) as [c1|] eqn:Hs; [|discriminate Hr].
    apply (IH c1); [eapply gated_step; eassumption | exact Hr].
Qed.

(** The session check resumes once. *)
Lemma resumed_step (c c' : Dash) (e : Event) :
  awaits_user c = false -> step c e = Some c' ->
  awaits_user c' = false /\ forall r, e <> UserResolved r.
Proof.
  intros Hu Hs. destruct e; simpl in Hs.
  - rewrite Hu in Hs. discriminate Hs.
  - destruct (awaits_profile c); [|discriminate Hs]. injection Hs as <-.
    split; [exact Hu | discriminate].
  - destruct (awaits_tickets c); [|discriminate Hs]. injection Hs as <-.
    split; [exact Hu | discriminate].
  - destruct (Nat.ltb 0 (awaits_signOut c)); [|discriminate Hs].
    injection Hs as <-. split; [exact Hu | discriminate].
  - destruct (ready_view c); [|discriminate Hs]. injection Hs as <-.
    split; [exact Hu | discriminate].
  - destruct (ready_view c); [|discriminate Hs]. injection Hs as <-.
    split; [exact Hu | discriminate].
  - destruct (ready_view c); [|discriminate Hs]. injection Hs as <-.
    split; [exact Hu | discriminate].
  - destruct (ready_view c) as [v|]; [|discriminate Hs].
    destruct (admin_tile v); [|discriminate Hs]. injection Hs as <-.
    split; [exact Hu | discriminate].
  - destruct (nth_error _ i); [|discriminate Hs]. injection Hs as <-.
    split; [exact Hu | discriminate].
Qed.

Lemma resumed_run (es : list Event) (c c' : Dash) (r : UserResponse) :
  awaits_user c = false -> run c es = Some c' -> ~ In (UserResolved r) es.
Proof.
  revert c. induction es as [|e es IH]; intros c Hu Hr Hin; simpl in *.
  - exact Hin.
  - destruct (step c e) as [c1|] eqn:Hs; [|discriminate Hr].
    destruct (resumed_step c c1 e Hu Hs) as [Hu1 Hne].
    destruct Hin as [->|Hin]; [exact (Hne r eq_refl)|].
    exact (IH c1 Hu1 Hr Hin).
Qed.

Lemma unresolved_step (c c' : Dash) (e : Event) :
  unresolved c -> step c e = Some c' ->
  (exists r, e = UserResolved r /\ c' = checkUser_user r c) \/
  (unresolved c' /\ forall r, e <> UserResolved r).
Proof.
  intros U Hs. pose proof U as [Hu [Hp [Ho [Hl Hlog]]]].
  pose proof (loading_step c c' e Hl Hs) as He.
  destruct e; try contradiction; simpl in Hs.
  - rewrite Hu in Hs. injection Hs as <-. left. eauto.
  - rewrite Hp in Hs. discriminate Hs.
  - destruct (awaits_tickets c); [|discriminate Hs].
    injection Hs as <-. right. split; [|discriminate].
    repeat split; assumption.
  - rewrite Ho in Hs. discriminate Hs.
Qed.

Lemma unresolved_gate (c : Dash) (r : UserResponse) :
  unresolved c -> data_user r = None -> gated (checkUser_user r c).
Proof.
  intros [Hu [Hp [Ho [Hl Hlog]]]] Hr. unfold checkUser_user. rewrite Hr.
  repeat split; simpl; try assumption. rewrite Hlog. reflexivity.
Qed.

Lemma unresolved_run (es : list Event) (c c' : Dash) (r : UserResponse) :
  unresolved c -> data_user r = None ->
  run c es = Some c' -> In (UserResolved r) es -> gated c'.
Proof.
  revert c. induction es as [|e es IH]; intros c U Hr Hrun Hin;
    simpl in Hrun; [destruct Hin|].
  destruct (step c e) as [c1|] eqn:Hs; [|discriminate Hrun].
  destruct (unresolved_step c c1 e U Hs) as [[r0 [-> ->]]|[U1 Hne]].
  - destruct Hin as [E|Hin].
    + injection E as ->. eapply gated_run; [|exact Hrun].
      apply unresolved_gate; assumption.
    + exfalso. eapply (resumed_run es _ c' r); [|exact Hrun|exact Hin].
      unfold checkUser_user. destruct (data_user r0); reflexivity.
  - destruct Hin as [->|Hin]; [exfalso; exact (Hne r eq_refl)|].
    exact (IH c1 U1 Hr Hrun Hin).
Qed.

Lemma mount_unresolved : unresolved mount.
Proof. repeat split. Qed.

End DashboardRuns.

(** C4. Mount sends the session lookup and the ticket query together.  In
    every run in which the session lookup then resolves to no user, whatever
    else happens and in whatever order: the dashboard navigates to "/login";
    it sends nothing after that, in particular no profile query, so the
    requests it ever sent are the two of mount; and it stays on its loading
    screen, which shows no ticket row, also after the ticket query of mount
    has resolved. *)
Theorem no_session_gate (r : UserResponse) (es : list Dashboard.Event)
    (c : Dashboard.Dash) :
  data_user r = None ->
  Dashboard.run Dashboard.mount es = Some c ->
  In (Dashboard.UserResolved r) es ->
  Dashboard.log c = Dashboard.log Dashboard.mount ++ [Navigate (lit "/login")] /\
  filter is_issue (Dashboard.log c) =
    [Issue GetUser; Issue (Fetch fetchTickets_query)] /\
  Dashboard.awaits_profile c = false /\
  render (Dashboard.st c) = Ok LoadingView /\
  rows_of LoadingView = [].
Proof.
  intros Hr Hrun Hin.
  destruct (unresolved_run es _ c r mount_unresolved Hr Hrun Hin)
    as [Hu [Hp [Ho [Hl Hlog]]]].
  repeat split.
  - rewrite Hlog. reflexivity.
  - rewrite Hlog. reflexivity.
  - exact Hp.
  - apply render_loading, Hl.
Qed.

Lemma no_session_gate_witness :
  exists c,
    Dashboard.run Dashboard.mount
      [Dashboard.UserResolved no_session;
       Dashboard.TicketsResolved {| data := Some sample_tickets; error := None |}]
    = Some c /\
    tickets (Dashboard.st c) = sample_tickets /\
    Dashboard.log c = Dashboard.log Dashboard.mount ++ [Navigate (lit "/login")] /\
    render (Dashboard.st c) = Ok LoadingView.
Proof.
  eexists. split; [reflexivity|]. split; [reflexivity|].
  pose proof (no_session_gate no_session
                [Dashboard.UserResolved no_session;
                 Dashboard.TicketsResolved
                   {| data := Some sample_tickets; error := None |}]
                _ eq_refl eq_refl (or_introl eq_refl)) as [Hlog [_ [_ [Hv _]]]].
  split; [exact Hlog | exact Hv].
Defined.

(** ** Failures of the backend *)

(** C6. A failed backend call resolves to a response without data, and each
    call site reads the data alone, so a failure becomes an absent or empty
    result where it is awaited:
    - a failed session lookup is handled as "no session";
    - a failed profile query leaves the profile absent and ends the loading
      screen, with no name, no role badge and no admin tile;
    - a failed ticket query stores the empty list, exactly as a successful
      query with zero rows does;
    - a failed sign-out is handled as a successful one;
    and no state whatever makes rendering throw. *)
Theorem backend_failures_degrade :
  (forall c r, user_failed r ->
     Dashboard.step c (Dashboard.UserResolved r) =
     Dashboard.step c (Dashboard.UserResolved no_session)) /\
  (forall c r, failed r -> Dashboard.awaits_profile c = true ->
     exists c' v,
       Dashboard.step c (Dashboard.ProfileResolved r) = Some c' /\
       profile (Dashboard.st c') = None /\
       Dashboard.log c' = Dashboard.log c /\
       render (Dashboard.st c') = Ok (Ready v) /\
       header_name v = None /\ header_role v = None /\ admin_tile v = None) /\
  (forall c r, failed r ->
     Dashboard.step c (Dashboard.TicketsResolved r) =
     Dashboard.step c (Dashboard.TicketsResolved
                         {| data := Some []; error := None |}) /\
     forall c', Dashboard.step c (Dashboard.TicketsResolved r) = Some c' ->
                tickets (Dashboard.st c') = [] /\
                Dashboard.log c' = Dashboard.log c) /\
  (forall c r,
     Dashboard.step c (Dashboard.SignOutResolved r) =
     Dashboard.step c (Dashboard.SignOutResolved {| signOut_error := None |})) /\
  (forall s, exists v, render s = Ok v).
Proof.
  split; [|split; [|split; [|split]]].
  - intros c [d e] [Hd _]. simpl in Hd. subst d. reflexivity.
  - intros c [d e] [Hd _] Ha. simpl in Hd. subst d.
    set (c' := Dashboard.checkUser_profile {| data := None; error := e |} c).
    assert (Hl : loading (Dashboard.st c') = false) by reflexivity.
    destruct (render_ready _ Hl) as [v [Hv [Hn [Hr [Ht _]]]]].
    exists c', v. simpl. rewrite Ha. repeat split; assumption.
  - intros c [d e] [Hd _]. simpl in Hd. subst d. split; [reflexivity|].
    intros c' Hs. simpl in Hs.
    destruct (Dashboard.awaits_tickets c); [|discriminate Hs].
    injection Hs as <-. split; reflexivity.
  - intros c r. reflexivity.
  - exact render_total.
Qed.

Lemma backend_failures_degrade_witness :
  Dashboard.step Dashboard.mount
    (Dashboard.UserResolved
       {| data_user := None; user_error := Some network_error |}) =
  Dashboard.step Dashboard.mount (Dashboard.UserResolved no_session) /\
  (exists c',
     Dashboard.step Dashboard.mount
       (Dashboard.TicketsResolved
          {| data := None; error := Some network_error |}) = Some c' /\
     tickets (Dashboard.st c') = []) /\
  (exists c' v,
     Dashboard.step
       (Dashboard.checkUser_user
          {| data_user := Some {| user_id := lit "u1" |}; user_error := None |}
          Dashboard.mount)
       (Dashboard.ProfileResolved
          {| data := None; error := Some network_error |}) = Some c' /\
     render (Dashboard.st c') = Ok (Ready v) /\ admin_tile v = None).
Proof.
  destruct backend_failures_degrade as [Huser [Hprofile [Htickets _]]].
  assert (Hf : forall A, @failed A {| data := None; error := Some network_error |})
    by (intros A; split; [reflexivity | discriminate]).
  split; [|split].
  - apply Huser. split; [reflexivity | discriminate].
  - eexists. split; [reflexivity|].
    apply (proj2 (Htickets Dashboard.mount _ (Hf _))). reflexivity.
  - destruct (Hprofile
                (Dashboard.checkUser_user
                   {| data_user := Some {| user_id := lit "u1" |};
                      user_error := None |} Dashboard.mount)
                _ (Hf _) eq_refl)
      as [c' [v [Hs [_ [_ [Hv [_ [_ Ht]]]]]]]].
    exists c', v. repeat split; assumption.
Defined.

(** ** Sign-out *)

(** C7. Where the Logout button is on screen, clicking it sends the sign-out
    call and nothing else; when that call resolves, with or without an
    error, the dashboard navigates to "/login" and then shows the toast
    "Logged out".  The three effects happen in this order and the state is
    left as it was. *)
Theorem logout_regardless (c : Dashboard.Dash) (r : SignOutResponse) :
  loading (Dashboard.st c) = false ->
  exists c1 c2,
    Dashboard.step c Dashboard.ClickLogout = Some c1 /\
    Dashboard.log c1 = Dashboard.log c ++ [Issue SignOut] /\
    Dashboard.step c1 (Dashboard.SignOutResolved r) = Some c2 /\
    Dashboard.log c2 =
      Dashboard.log c ++
      [Issue SignOut; Navigate (lit "/login");
       Toast (lit "Logged out") (lit "You have been logged out successfully")] /\
    Dashboard.st c2 = Dashboard.st c.
Proof.
  intros Hl. destruct (ready_has_view c Hl) as [v Hv].
  exists (Dashboard.handleLogout c),
         (Dashboard.handleLogout_done r (Dashboard.handleLogout c)).
  simpl. rewrite Hv. repeat split.
  rewrite <- !app_assoc. reflexivity.
Qed.

Lemma logout_regardless_witness :
  loading (Dashboard.st sample_dash) = false /\
  exists c1 c2,
    Dashboard.step sample_dash Dashboard.ClickLogout = Some c1 /\
    Dashboard.log c1 = Dashboard.log sample_dash ++ [Issue SignOut] /\
    Dashboard.step c1 (Dashboard.SignOutResolved
                         {| signOut_error := Some network_error |}) = Some c2 /\
    Dashboard.log c2 =
      Dashboard.log sample_dash ++
      [Issue SignOut; Navigate (lit "/login");
       Toast (lit "Logged out") (lit "You have been logged out successfully")] /\
    Dashboard.st c2 = Dashboard.st sample_dash.
Proof.
  split; [reflexivity|].
  apply (logout_regardless sample_dash
           {| signOut_error := Some network_error |}).
  reflexivity.
Defined.

(** ** The landing page *)

Lemma index_resumed_step (c c' : Index.Landing) (e : Index.Event) :
  Index.awaits_user c = false -> Index.step c e = Some c' ->
  Index.is_click e = true /\ Index.awaits_user c' = false.
Proof.
  intros Hu Hs. destruct e; simpl in Hs.
  - rewrite Hu in Hs. discriminate Hs.
  - injection Hs as <-. split; [reflexivity | exact Hu].
  - injection Hs as <-. split; [reflexivity | exact Hu].
Qed.

(** C9. The landing page looks the session up on mount.  If the lookup
    resolves to a user, the page navigates to "/dashboard".  If it resolves
    to no user, the page navigates nowhere and shows its public content, and
    from then on only a click of the visitor can navigate. *)
Theorem landing_gate (r : UserResponse) :
  Index.log Index.mount = [Issue GetUser] /\
  (forall u, data_user r = Some u ->
     exists c,
       Index.step Index.mount (Index.UserResolved r) = Some c /\
       Index.log c = [Issue GetUser; Navigate (lit "/dashboard")]) /\
  (data_user r = None ->
     exists c,
       Index.step Index.mount (Index.UserResolved r) = Some c /\
       Index.log c = [Issue GetUser] /\
       filter is_navigate (Index.log c) = [] /\
       Index.render c = Index.PublicContent /\
       forall e c', Index.step c e = Some c' -> Index.is_click e = true).
Proof.
  split; [reflexivity|]. split.
  - intros u Hu. eexists. simpl. unfold Index.checkUser_user. rewrite Hu.
    split; reflexivity.
  - intros Hn. eexists. simpl. unfold Index.checkUser_user. rewrite Hn.
    simpl. repeat split.
    intros e c' Hs. eapply index_resumed_step; [|exact Hs]. reflexivity.
Qed.

Lemma landing_gate_witness :
  (exists c,
     Index.step Index.mount
       (Index.UserResolved
          {| data_user := Some {| user_id := lit "u1" |}; user_error := None |})
     = Some c /\
     Index.log c = [Issue GetUser; Navigate (lit "/dashboard")]) /\
  (exists c,
     Index.step Index.mount (Index.UserResolved no_session) = Some c /\
     Index.log c = [Issue GetUser] /\
     Index.render c = Index.PublicContent).
Proof.
  split.
  - apply (proj1 (proj2 (landing_gate
                           {| data_user := Some {| user_id := lit "u1" |};
                              user_error := None |}))
             {| user_id := lit "u1" |}).
    reflexivity.
  - destruct (proj2 (proj2 (landing_gate no_session)) eq_refl)
      as [c [Hs [Hlog [_ [Hv _]]]]].
    exists c. repeat split; assumption.
Defined.

(** * Further properties of the two components *)

(** ** Status classes *)

Lemma getStatusColor_cases (s : jsstring) :
  (s = lit "open" /\ getStatusColor s = lit "bg-red-100 text-red-800") \/
  (s = lit "in_progress" /\
   getStatusColor s = lit "bg-yellow-100 text-yellow-800") \/
  (s = lit "resolved" /\
   getStatusColor s = lit "bg-green-100 text-green-800") \/
  (s <> lit "open" /\ s <> lit "in_progress" /\ s <> lit "resolved" /\
   getStatusColor s = lit "bg-gray-100 text-gray-800").
Proof.
  unfold getStatusColor.
  destruct (s === lit "open") eqn:E1.
  { apply strict_eq_true in E1. left. split; [exact E1 | reflexivity]. }
  destruct (s === lit "in_progress") eqn:E2.
  { apply strict_eq_true in E2. right; left. split; [exact E2 | reflexivity]. }
  destruct (s === lit "resolved") eqn:E3.
  { apply strict_eq_true in E3. right; right; left.
    split; [exact E3 | reflexivity]. }
  apply strict_eq_false in E1, E2, E3. right; right; right.
  repeat split; try assumption. destruct (s === lit "closed"); reflexivity.
Qed.

(** The badge class identifies the status within the closed set: two of the
    four statuses with the same class are the same status.  The gray class
    is what exactly the strings other than 'open', 'in_progress' and
    'resolved' get, so it cannot tell 'closed' from an unknown status. *)
Theorem status_class_identifies_status :
  (forall s1 s2, In s1 statuses -> In s2 statuses ->
                 getStatusColor s1 = getStatusColor s2 -> s1 = s2) /\
  (forall s, getStatusColor s = lit "bg-gray-100 text-gray-800" <->
             s <> lit "open" /\ s <> lit "in_progress" /\ s <> lit "resolved").
Proof.
  split.
  - intros s1 s2 H1 H2. unfold statuses in H1, H2. simpl in H1, H2.
    destruct H1 as [<-|[<-|[<-|[<-|[]]]]];
      destruct H2 as [<-|[<-|[<-|[<-|[]]]]];
      intros H; try reflexivity; vm_compute in H; discriminate H.
  - intros s. split.
    + intros Hg.
      destruct (getStatusColor_cases s)
        as [[_ H]|[[_ H]|[[_ H]|[H1 [H2 [H3 _]]]]]];
        try (rewrite H in Hg; vm_compute in Hg; discriminate Hg).
      repeat split; assumption.
    + intros [H1 [H2 H3]].
      destruct (getStatusColor_cases s)
        as [[E _]|[[E _]|[[E _]|[_ [_ [_ H]]]]]]; try contradiction.
      exact H.
Qed.

Lemma status_class_identifies_status_witness :
  lit "open" = lit "open" /\
  getStatusColor (lit "archived") = lit "bg-gray-100 text-gray-800".
Proof.
  split.
  - apply (proj1 status_class_identifies_status); simpl; auto.
  - apply (proj2 status_class_identifies_status).
    repeat split; vm_compute; discriminate.
Defined.

(** ** What truncation keeps and what it loses *)

(** Two descriptions are shown as the same text exactly when they agree on
    their first 100 code units: everything from unit 100 on is invisible in
    the list, and nothing before it is.  The text shown is never longer than
    103 units. *)
Theorem description_text_same_iff_prefix (d1 d2 : jsstring) :
  (description_text d1 = description_text d2 <->
   firstn 100 d1 = firstn 100 d2) /\
  (length (description_text d1) <= 103)%nat.
Proof.
  unfold description_text. rewrite !substring_0_100. split.
  - split.
    + apply app_inv_tail.
    + intros ->. reflexivity.
  - rewrite length_app, length_firstn.
    change (length (lit "...")) with 3%nat. lia.
Qed.

Lemma well_formed_cons (c : N) (rest : jsstring) :
  well_formed (c :: rest) =
  if is_high_surrogate c then
    match rest with
    | lo :: rest' => is_low_surrogate lo && well_formed rest'
    | [] => false
    end
  else if is_low_surrogate c then false
  else well_formed rest.
Proof. reflexivity. Qed.

Lemma high_not_low (c : N) :
  is_high_surrogate c = true -> is_low_surrogate c = false.
Proof.
  unfold is_high_surrogate, is_low_surrogate. intros H.
  apply andb_true_iff in H as [_ Hle]. apply N.leb_le in Hle.
  apply andb_false_iff. left. apply N.leb_gt. lia.
Qed.

Lemma well_formed_cut (n : nat) :
  forall (p q : jsstring) (hi : N),
    (length p <= n)%nat ->
    is_high_surrogate hi = true ->
    well_formed (p ++ hi :: lit "..." ++ q) = false.
Proof.
  assert (Hbase : forall q hi, is_high_surrogate hi = true ->
                               well_formed (hi :: lit "..." ++ q) = false).
  { intros q hi Hhi. rewrite well_formed_cons, Hhi. reflexivity. }
  induction n as [|n IH]; intros p q hi Hlen Hhi.
  - destruct p; [|simpl in Hlen; lia]. apply Hbase, Hhi.
  - destruct p as [|c p]; [apply Hbase, Hhi|].
    simpl in Hlen. rewrite <- app_comm_cons, well_formed_cons.
    destruct (is_high_surrogate c).
    + destruct p as [|lo p].
      * rewrite app_nil_l, (high_not_low hi Hhi). reflexivity.
      * simpl in Hlen. rewrite <- app_comm_cons.
        rewrite (IH p q hi) by (lia || exact Hhi).
        apply andb_false_r.
    + destruct (is_low_surrogate c); [reflexivity|].
      apply IH; [lia | exact Hhi].
Qed.

Lemma firstn_around {A} (l1 l2 : list A) (a : A) (n : nat) :
  length l1 = n ->
  firstn n (l1 ++ a :: l2) = l1 /\
  firstn (S n) (l1 ++ a :: l2) = l1 ++ [a].
Proof.
  intros <-. split.
  - rewrite firstn_app, Nat.sub_diag, firstn_all. simpl. apply app_nil_r.
  - rewrite firstn_app, firstn_all2 by lia.
    replace (S (length l1) - length l1)%nat with 1%nat by lia.
    reflexivity.
Qed.

(** The cut is made between code units, not between characters: when unit
    99 of a description is the first half of a surrogate pair, the text
    shown ends that half directly with the "..." marker and is not
    well-formed UTF-16, however well-formed the description was. *)
Theorem truncation_splits_surrogate_pair (d : jsstring) (hi : N) :
  nth_error d 99 = Some hi ->
  is_high_surrogate hi = true ->
  description_text d = firstn 99 d ++ hi :: lit "..." /\
  well_formed (description_text d) = false.
Proof.
  intros Hn Hhi.
  destruct (nth_error_split d 99 Hn) as [l1 [l2 [-> Hl1]]].
  destruct (firstn_around l1 l2 hi 99 Hl1) as [E99 E100].
  assert (E : description_text (l1 ++ hi :: l2) = l1 ++ hi :: lit "...").
  { unfold description_text. rewrite substring_0_100, E100, <- app_assoc.
    reflexivity. }
  rewrite E99, E. split; [reflexivity|].
  rewrite <- (app_nil_r (lit "...")).
  apply (well_formed_cut 99); [lia | exact Hhi].
Qed.

Lemma truncation_splits_surrogate_pair_witness :
  well_formed emoji_description = true /\
  well_formed (description_text emoji_description) = false.
Proof.
  split; [vm_compute; reflexivity|].
  apply (proj2 (truncation_splits_surrogate_pair emoji_description 55357%N
                  eq_refl eq_refl)).
Defined.

Lemma description_text_same_iff_prefix_witness :
  description_text emoji_description =
  description_text (repeat 97%N 99 ++ [55357%N; 56833%N; 33%N]).
Proof.
  apply (proj1 (description_text_same_iff_prefix emoji_description
                  (repeat 97%N 99 ++ [55357%N; 56833%N; 33%N]))).
  vm_compute. reflexivity.
Defined.

(** ** When the dashboard's events are possible *)

Section DashboardTransitions.

Import Dashboard.

Lemma ready_view_eq (c : Dash) :
  loading (st c) = false ->
  ready_view c =
  Some {| header_name := opt_chain (profile (st c)) name;
          header_role := opt_chain (profile (st c)) role;
          create_tile := {| tile_title := lit "Create Ticket";
                            tile_onClick := lit "/tickets/new" |};
          view_tile := {| tile_title := lit "View Tickets";
                          tile_onClick := lit "/tickets" |};
          admin_tile :=
            if shows_admin (profile (st c))
            then Some {| tile_title := lit "Admin Panel";
                         tile_onClick := lit "/admin" |}
            else None;
          tickets_section :=
            match tickets (st c) with
            | [] => EmptyState empty_message
            | _ :: _ => Rows (map row_of (tickets (st c)))
            end |}.
Proof.
  intros H. unfold ready_view, render. rewrite H, render_tickets_ok.
  reflexivity.
Qed.

Lemma ready_rows (c : Dash) :
  loading (st c) = false ->
  match ready_view c with
  | Some v => rows_of (Ready v)
  | None => []
  end = map row_of (tickets (st c)).
Proof.
  intros H. rewrite (ready_view_eq c H). simpl.
  destruct (tickets (st c)); reflexivity.
Qed.

Lemma loading_cases (c : Dash) :
  loading (st c) = true \/ loading (st c) = false.
Proof. destruct (loading (st c)); auto. Qed.

Lemma step_sound (c c' : Dash) (e : Event) :
  step c e = Some c' -> Transition c e c'.
Proof.
  intros Hs.
  destruct e; unfold step in Hs.
  - destruct (awaits_user c) eqn:Ha; [|discriminate Hs].
    injection Hs as <-. constructor. exact Ha.
  - destruct (awaits_profile c) eqn:Ha; [|discriminate Hs].
    injection Hs as <-. constructor. exact Ha.
  - destruct (awaits_tickets c) eqn:Ha; [|discriminate Hs].
    injection Hs as <-. constructor. exact Ha.
  - destruct (awaits_signOut c) eqn:Ha; simpl in Hs; [discriminate Hs|].
    injection Hs as <-. constructor. rewrite Ha. discriminate.
  - destruct (loading_cases c) as [Hl|Hl].
    + rewrite (loading_no_view c Hl) in Hs. discriminate Hs.
    + rewrite (ready_view_eq c Hl) in Hs. injection Hs as <-.
      constructor. exact Hl.
  - destruct (loading_cases c) as [Hl|Hl].
    + rewrite (loading_no_view c Hl) in Hs. discriminate Hs.
    + rewrite (ready_view_eq c Hl) in Hs. injection Hs as <-.
      constructor. exact Hl.
  - destruct (loading_cases c) as [Hl|Hl].
    + rewrite (loading_no_view c Hl) in Hs. discriminate Hs.
    + rewrite (ready_view_eq c Hl) in Hs. injection Hs as <-.
      constructor. exact Hl.
  - destruct (loading_cases c) as [Hl|Hl].
    + rewrite (loading_no_view c Hl) in Hs. discriminate Hs.
    + rewrite (ready_view_eq c Hl) in Hs. simpl in Hs.
      destruct (shows_admin (profile (st c))) eqn:Ha; [|discriminate Hs].
      injection Hs as <-. constructor; assumption.
  - destruct (loading_cases c) as [Hl|Hl].
    + rewrite (loading_no_view c Hl) in Hs. destruct i; discriminate Hs.
    + rewrite (ready_rows c Hl), nth_error_map in Hs.
      destruct (nth_error (tickets (st c)) i) as [t|] eqn:Hn;
        [|discriminate Hs].
      simpl in Hs. injection Hs as <-. constructor; assumption.
Qed.

Lemma step_complete (c c' : Dash) (e : Event) :
  Transition c e c' -> step c e = Some c'.
Proof.
  intros T. destruct T as [r Ha|r Ha|r Ha|r Ha|Hl|Hl|Hl|Hl Ha|i t Hl Hn];
    unfold step.
  - rewrite Ha. reflexivity.
  - rewrite Ha. reflexivity.
  - rewrite Ha. reflexivity.
  - destruct (awaits_signOut c); [contradiction|]. reflexivity.
  - rewrite (ready_view_eq c Hl). reflexivity.
  - rewrite (ready_view_eq c Hl). reflexivity.
  - rewrite (ready_view_eq c Hl). reflexivity.
  - rewrite (ready_view_eq c Hl). simpl. rewrite Ha. reflexivity.
  - rewrite (ready_rows c Hl), nth_error_map, Hn. reflexivity.
Qed.

(** An invariant of the transitions holds along every run. *)
Lemma run_invariant (P : Dash -> Prop) :
  (forall c c' e, P c -> Transition c e c' -> P c') ->
  forall es c c', P c -> run c es = Some c' -> P c'.
Proof.
  intros Hstep. induction es as [|e es IH]; intros c c' Hc Hr; simpl in Hr.
  - injection Hr as <-. exact Hc.
  - destruct (step c e) as [c1|] eqn:Hs; [|discriminate Hr].
    apply (IH c1); [|exact Hr].
    apply (Hstep c c1 e); [exact Hc | apply step_sound, Hs].
Qed.

End DashboardTransitions.

(** The step function and the transition relation are the same: a response
    is accepted exactly while its await is in flight, every click needs the
    dashboard to be past its loading screen, the admin tile can be clicked
    exactly when the profile's role is 'admin' or 'agent', and a click on
    row [i] is possible exactly when the list has a ticket at [i], leading to
    "/tickets/" followed by that ticket's id. *)
Theorem step_iff_Transition (c c' : Dashboard.Dash) (e : Dashboard.Event) :
  Dashboard.step c e = Some c' <-> Transition c e c'.
Proof. split; [apply step_sound | apply step_complete]. Qed.

Lemma step_iff_Transition_witness :
  Dashboard.step sample_dash (Dashboard.ClickTicket 1) =
  Some (Dashboard.navigate (lit "/tickets/t1") sample_dash) /\
  Dashboard.step sample_dash (Dashboard.ClickTicket 2) = None.
Proof.
  split.
  - apply (proj2 (step_iff_Transition sample_dash _ (Dashboard.ClickTicket 1))).
    apply (T_ticket sample_dash 1
             {| id := lit "t1"; subject := lit "VPN"; description := [];
                status := lit "archived";
                created_at := lit "2024-05-01T10:00:00Z";
                upvotes := 0; categories := None |}); reflexivity.
  - reflexivity.
Defined.

(** ** Invariants along the dashboard's runs *)

Section DashboardInvariants.

Import Dashboard.

Ltac transition_cases T :=
  destruct T as [r Ha|r Ha|r Ha|r Ha|Hl|Hl|Hl|Hl Ha|i t Hl Hn].

Lemma phase_inv_mount : phase_inv mount.
Proof. unfold phase_inv. simpl. intuition discriminate. Qed.

Lemma phase_inv_step (c c' : Dash) (e : Event) :
  phase_inv c -> Transition c e c' -> phase_inv c'.
Proof.
  intros [I1 [I2 [I3 I4]]] T. transition_cases T.
  - destruct (I1 Ha) as [Hp [Hl [Hu Hpr]]].
    unfold checkUser_user. destruct (data_user r) as [u|];
      unfold phase_inv; simpl;
      intuition (try discriminate; try congruence).
  - destruct (I2 Ha) as [Hu [Hl [Hus Hpr]]].
    unfold phase_inv; simpl;
      intuition (try discriminate; try congruence).
  - unfold phase_inv; simpl. auto.
  - unfold phase_inv; simpl. auto.
  - unfold phase_inv; simpl. auto.
  - unfold phase_inv; simpl. auto.
  - unfold phase_inv; simpl. auto.
  - unfold phase_inv; simpl. auto.
  - unfold phase_inv; simpl. auto.
Qed.

Lemma loads_inv_step (c c' : Dash) (e : Event) :
  loads_inv c -> Transition c e c' -> loads_inv c'.
Proof.
  intros [I1 I2] T. transition_cases T;
    try (unfold loads_inv; simpl; rewrite ?filter_app; simpl;
         rewrite ?app_nil_r; split; assumption).
  - pose proof (I1 Ha) as Hu. rewrite Hu in I2.
    unfold checkUser_user. destruct (data_user r) as [u|];
      unfold loads_inv; simpl; rewrite ?filter_app, I2; simpl.
    + split; [discriminate | reflexivity].
    + rewrite Hu. split; [discriminate | reflexivity].
Qed.

Lemma admin_inv_step (c c' : Dash) (e : Event) :
  phase_inv c -> admin_inv c -> Transition c e c' -> admin_inv c'.
Proof.
  intros [I1 [I2 [I3 I4]]] A T. unfold admin_inv in *.
  assert (Hnew : forall to : jsstring,
             to <> lit "/admin" ->
             In (Navigate (lit "/admin")) (log c ++ [Navigate to]) ->
             In (Navigate (lit "/admin")) (log c)).
  { intros to Hto Hin. apply in_app_or in Hin as [Hin|[E|[]]];
      [exact Hin | congruence]. }
  transition_cases T.
  - intros Hin. exfalso.
    destruct (I1 Ha) as [_ [Hl _]].
    assert (Hold : In (Navigate (lit "/admin")) (log c)).
    { unfold checkUser_user in Hin. destruct (data_user r); simpl in Hin;
        apply in_app_or in Hin as [Hin|[E|[]]];
        (exact Hin || discriminate E). }
    destruct (A Hold) as [Hf _]. congruence.
  - intros Hin. exfalso. simpl in Hin.
    destruct (I2 Ha) as [_ [Hl _]].
    destruct (A Hin) as [Hf _]. congruence.
  - intros Hin. simpl in *. apply A, Hin.
  - intros Hin. simpl in *. apply A.
    apply in_app_or in Hin as [Hin|[E|[]]]; [|discriminate E].
    apply in_app_or in Hin as [Hin|[E|[]]]; [exact Hin | discriminate E].
  - intros Hin. simpl in *. apply A.
    apply in_app_or in Hin as [Hin|[E|[]]]; [exact Hin | discriminate E].
  - intros Hin. simpl in *. apply A, (Hnew (lit "/tickets/new"));
      [discriminate | exact Hin].
  - intros Hin. simpl in *. apply A, (Hnew (lit "/tickets"));
      [discriminate | exact Hin].
  - intros _. simpl. split; assumption.
  - intros Hin. simpl in *. apply A, (Hnew (lit "/tickets/" ++ id t));
      [discriminate | exact Hin].
Qed.

Lemma signOut_inv_step (c c' : Dash) (e : Event) :
  signOut_inv c -> Transition c e c' -> signOut_inv c'.
Proof.
  unfold signOut_inv. intros I T. transition_cases T;
    try (simpl; rewrite ?filter_app, ?length_app; simpl; lia).
  - unfold checkUser_user. destruct (data_user r); simpl;
      rewrite ?filter_app, ?length_app; simpl; lia.
Qed.

Lemma reachable_phase (es : list Event) (c : Dash) :
  run mount es = Some c -> phase_inv c.
Proof.
  apply (run_invariant phase_inv phase_inv_step es mount c phase_inv_mount).
Qed.

End DashboardInvariants.

(** In every run from mount, the dashboard is past its loading screen only
    when a signed-in user has been resolved and neither the session lookup
    nor the profile query is still in flight; as long as no user is held,
    the loading screen is shown and no profile is held. *)
Theorem content_requires_user (es : list Dashboard.Event) (c : Dashboard.Dash) :
  Dashboard.run Dashboard.mount es = Some c ->
  (loading (Dashboard.st c) = false ->
   (exists u, user (Dashboard.st c) = Some u) /\
   Dashboard.awaits_user c = false /\ Dashboard.awaits_profile c = false) /\
  (user (Dashboard.st c) = None ->
   render (Dashboard.st c) = Ok LoadingView /\ profile (Dashboard.st c) = None).
Proof.
  intros Hr. destruct (reachable_phase es c Hr) as [_ [_ [I3 I4]]]. split.
  - intros Hl. destruct (I3 Hl) as [Hu [Hp Hus]].
    repeat split; try assumption.
    destruct (user (Dashboard.st c)) as [u|]; [eauto | congruence].
  - intros Hu. destruct (I4 Hu) as [Hl Hp].
    split; [apply render_loading, Hl | exact Hp].
Qed.

Lemma content_requires_user_witness :
  (exists u, user (Dashboard.st sample_dash) = Some u) /\
  Dashboard.awaits_user sample_dash = false /\
  Dashboard.awaits_profile sample_dash = false.
Proof.
  apply (proj1 (content_requires_user sample_events sample_dash eq_refl)).
  reflexivity.
Defined.

(** In every run from mount, the data requests sent so far are, in this
    order: the session lookup, the ticket query, and, exactly when a user is
    held, one profile query, for the single row whose id is that user's id.
    Nothing is ever requested twice. *)
Theorem data_requests_sent (es : list Dashboard.Event) (c : Dashboard.Dash) :
  Dashboard.run Dashboard.mount es = Some c ->
  filter is_load (Dashboard.log c) =
    Issue GetUser :: Issue (Fetch fetchTickets_query) ::
    match user (Dashboard.st c) with
    | Some u =>
        [Issue (Fetch {| q_from := lit "profiles"; q_select := lit "*";
                         q_eq := [(lit "id", user_id u)]; q_order := [];
                         q_limit := None; q_single := true |})]
    | None => []
    end.
Proof.
  intros Hr.
  assert (I : loads_inv c).
  { apply (run_invariant loads_inv loads_inv_step es Dashboard.mount c);
      [|exact Hr].
    split; [reflexivity | reflexivity]. }
  destruct I as [_ I]. rewrite I.
  destruct (user (Dashboard.st c)); reflexivity.
Qed.

Lemma data_requests_sent_witness :
  filter is_load (Dashboard.log sample_dash) =
    [Issue GetUser; Issue (Fetch fetchTickets_query);
     Issue (Fetch (profile_query (lit "u1")))].
Proof.
  exact (data_requests_sent sample_events sample_dash eq_refl).
Defined.

(** In every run from mount, a navigation to "/admin" has happened only if
    the profile held has role 'admin' or 'agent'. *)
Theorem admin_navigation_requires_role
    (es : list Dashboard.Event) (c : Dashboard.Dash) :
  Dashboard.run Dashboard.mount es = Some c ->
  In (Navigate (lit "/admin")) (Dashboard.log c) ->
  exists p, profile (Dashboard.st c) = Some p /\
            (role p = lit "admin" \/ role p = lit "agent").
Proof.
  intros Hr Hin.
  assert (I : phase_inv c /\ admin_inv c).
  { apply (run_invariant (fun c => phase_inv c /\ admin_inv c))
      with (es := es) (c := Dashboard.mount); [| |exact Hr].
    - intros c0 c1 e [P A] T. split.
      + eapply phase_inv_step; eassumption.
      + eapply admin_inv_step; eassumption.
    - split; [apply phase_inv_mount|].
      intros H. simpl in H. destruct H as [H|[H|[]]]; discriminate H. }
  destruct I as [_ A]. destruct (A Hin) as [_ Hs].
  apply shows_admin_iff, Hs.
Qed.

Lemma admin_navigation_requires_role_witness :
  In (Navigate (lit "/admin")) (Dashboard.log sample_admin_dash) /\
  exists p, profile (Dashboard.st sample_admin_dash) = Some p /\
            (role p = lit "admin" \/ role p = lit "agent").
Proof.
  assert (Hin : In (Navigate (lit "/admin")) (Dashboard.log sample_admin_dash)).
  { vm_compute. do 3 right. left. reflexivity. }
  split; [exact Hin|].
  apply (admin_navigation_requires_role sample_admin_events sample_admin_dash);
    [vm_compute; reflexivity | exact Hin].
Defined.

(** In every run from mount, the sign-out calls sent are the ones still in
    flight plus one per "Logged out" toast shown: no toast without a call,
    and never more toasts than calls. *)
Theorem signOut_accounting (es : list Dashboard.Event) (c : Dashboard.Dash) :
  Dashboard.run Dashboard.mount es = Some c ->
  length (filter is_signOut (Dashboard.log c)) =
    (Dashboard.awaits_signOut c + length (filter is_toast (Dashboard.log c)))%nat /\
  (length (filter is_toast (Dashboard.log c)) <=
   length (filter is_signOut (Dashboard.log c)))%nat.
Proof.
  intros Hr.
  assert (I : signOut_inv c).
  { apply (run_invariant signOut_inv signOut_inv_step es Dashboard.mount c);
      [reflexivity | exact Hr]. }
  unfold signOut_inv in I. split; [exact I | lia].
Qed.

Lemma signOut_accounting_witness :
  length (filter is_signOut (Dashboard.log sample_logout_dash)) = 2%nat /\
  length (filter is_toast (Dashboard.log sample_logout_dash)) = 1%nat /\
  length (filter is_signOut (Dashboard.log sample_logout_dash)) =
    (Dashboard.awaits_signOut sample_logout_dash +
     length (filter is_toast (Dashboard.log sample_logout_dash)))%nat.
Proof.
  split; [vm_compute; reflexivity|]. split; [vm_compute; reflexivity|].
  apply (signOut_accounting sample_logout_events sample_logout_dash).
  vm_compute. reflexivity.
Defined.

(** ** Responses in either order *)

(** The ticket response is independent of the session, profile and sign-out
    responses: from any configuration, handling it before or after one of
    them is possible in the same cases and ends in the same state with the
    same effects. *)
Theorem ticket_response_commutes
    (c : Dashboard.Dash) (rt : QueryResponse (list Ticket)) :
  (forall ru,
     Dashboard.run c [Dashboard.TicketsResolved rt; Dashboard.UserResolved ru] =
     Dashboard.run c [Dashboard.UserResolved ru; Dashboard.TicketsResolved rt]) /\
  (forall rp,
     Dashboard.run c [Dashboard.TicketsResolved rt; Dashboard.ProfileResolved rp] =
     Dashboard.run c [Dashboard.ProfileResolved rp; Dashboard.TicketsResolved rt]) /\
  (forall rs,
     Dashboard.run c [Dashboard.TicketsResolved rt; Dashboard.SignOutResolved rs] =
     Dashboard.run c [Dashboard.SignOutResolved rs; Dashboard.TicketsResolved rt]).
Proof.
  destruct c as [s au ap at_ ao lg]. repeat split.
  - intros ru. unfold Dashboard.run, Dashboard.step, Dashboard.checkUser_user.
    destruct au, at_, (data_user ru); reflexivity.
  - intros rp. unfold Dashboard.run, Dashboard.step.
    destruct ap, at_; reflexivity.
  - intros rs. unfold Dashboard.run, Dashboard.step.
    destruct ao, at_; reflexivity.
Qed.

(** ** What the state holds *)

Section DashboardData.

Import Dashboard.

Ltac transition_cases T :=
  destruct T as [r Ha|r Ha|r Ha|r Ha|Hl|Hl|Hl|Hl Ha|i t Hl Hn].

Lemma tickets_settled (es : list Event) :
  forall c c', awaits_tickets c = false -> run c es = Some c' ->
               tickets (st c') = tickets (st c) /\
               awaits_tickets c' = false /\ first_tickets es = None.
Proof.
  induction es as [|e es IH]; intros c c' Hc Hr; simpl in Hr.
  - injection Hr as <-. auto.
  - destruct (step c e) as [c1|] eqn:Hs; [|discriminate Hr].
    apply step_sound in Hs.
    assert (H1 : tickets (st c1) = tickets (st c) /\
                 awaits_tickets c1 = false /\
                 first_tickets (e :: es) = first_tickets es).
    { transition_cases Hs; try (simpl; auto; fail).
      - unfold checkUser_user. destruct (data_user r); simpl; auto.
      - congruence. }
    destruct H1 as [Ht [Ha1 Hf]].
    destruct (IH c1 c' Ha1 Hr) as [Ht' [Ha' Hf']].
    rewrite Hf. repeat split; congruence.
Qed.

Lemma tickets_step (c c1 : Dash) (e : Event) :
  Transition c e c1 ->
  awaits_tickets c = true ->
  (exists r, e = TicketsResolved r /\ c1 = fetchTickets_data r c) \/
  (tickets (st c1) = tickets (st c) /\ awaits_tickets c1 = true /\
   forall es, first_tickets (e :: es) = first_tickets es).
Proof.
  intros T Hc. transition_cases T;
    try (right; simpl; auto; fail).
  - right. unfold checkUser_user. destruct (data_user r); simpl; auto.
  - left. eauto.
Qed.

Lemma tickets_from_response (es : list Event) :
  forall c c', awaits_tickets c = true -> run c es = Some c' ->
               tickets (st c') =
                 match first_tickets es with
                 | Some r => or_empty (data r)
                 | None => tickets (st c)
                 end /\
               (awaits_tickets c' = true <-> first_tickets es = None).
Proof.
  induction es as [|e es IH]; intros c c' Hc Hr; simpl in Hr.
  - injection Hr as <-. simpl. tauto.
  - destruct (step c e) as [c1|] eqn:Hs; [|discriminate Hr].
    apply step_sound in Hs.
    destruct (tickets_step c c1 e Hs Hc) as [[r [-> ->]]|[Ht [Ha1 Hf]]].
    + pose proof (fun H => tickets_settled es _ c' H Hr) as Hsettled.
      destruct (Hsettled eq_refl) as [Ht [Ha' _]].
      simpl. rewrite Ht, Ha'. simpl. split; [reflexivity|].
      split; discriminate.
    + destruct (IH c1 c' Ha1 Hr) as [Ht' Hiff].
      rewrite Hf, Ht', Ht. tauto.
Qed.

Lemma profile_settled (es : list Event) :
  forall c c', awaits_user c = false -> awaits_profile c = false ->
               run c es = Some c' ->
               profile (st c') = profile (st c) /\ first_profile es = None.
Proof.
  induction es as [|e es IH]; intros c c' Hu Hp Hr; simpl in Hr.
  - injection Hr as <-. auto.
  - destruct (step c e) as [c1|] eqn:Hs; [|discriminate Hr].
    apply step_sound in Hs.
    assert (H1 : profile (st c1) = profile (st c) /\
                 awaits_user c1 = false /\ awaits_profile c1 = false /\
                 first_profile (e :: es) = first_profile es).
    { transition_cases Hs; try (simpl; auto; fail); congruence. }
    destruct H1 as [Hpr [Hu1 [Hp1 Hf]]].
    destruct (IH c1 c' Hu1 Hp1 Hr) as [Hpr' Hf'].
    rewrite Hf. split; congruence.
Qed.

Lemma profile_step (c c1 : Dash) (e : Event) :
  Transition c e c1 ->
  (exists r, e = ProfileResolved r /\ awaits_profile c = true /\
             c1 = checkUser_profile r c) \/
  (profile (st c1) = profile (st c) /\
   forall es, first_profile (e :: es) = first_profile es).
Proof.
  intros T. transition_cases T;
    try (right; simpl; auto; fail).
  - right. unfold checkUser_user. destruct (data_user r); simpl; auto.
  - left. eauto.
Qed.

Lemma profile_from_response (es : list Event) :
  forall c c', phase_inv c -> run c es = Some c' ->
               profile (st c') =
                 match first_profile es with
                 | Some r => data r
                 | None => profile (st c)
                 end.
Proof.
  induction es as [|e es IH]; intros c c' Hc Hr; simpl in Hr.
  - injection Hr as <-. reflexivity.
  - destruct (step c e) as [c1|] eqn:Hs; [|discriminate Hr].
    apply step_sound in Hs.
    pose proof (phase_inv_step c c1 e Hc Hs) as Hc1.
    destruct (profile_step c c1 e Hs) as [[r [-> [Ha ->]]]|[Hp Hf]].
    + destruct Hc as [_ [I2 _]]. destruct (I2 Ha) as [Hu _].
      pose proof (fun H1 H2 => profile_settled es _ c' H1 H2 Hr) as Hsettled.
      destruct (Hsettled Hu eq_refl) as [Hpr _].
      simpl. rewrite Hpr. reflexivity.
    + rewrite Hf, (IH c1 c' Hc1 Hr), Hp. reflexivity.
Qed.

End DashboardData.

(** In every run from mount, the ticket list held is the data of the ticket
    response, the empty list if that response carried none or has not
    arrived; the profile held is the data of the profile response, none if
    that response carried none or has not arrived.  The ticket query is in
    flight exactly until its response, so no second response is ever
    taken. *)
Theorem state_holds_the_responses
    (es : list Dashboard.Event) (c : Dashboard.Dash) :
  Dashboard.run Dashboard.mount es = Some c ->
  tickets (Dashboard.st c) =
    match first_tickets es with
    | Some r => Dashboard.or_empty (data r)
    | None => []
    end /\
  (Dashboard.awaits_tickets c = true <-> first_tickets es = None) /\
  profile (Dashboard.st c) =
    match first_profile es with
    | Some r => data r
    | None => None
    end.
Proof.
  intros Hr.
  destruct (tickets_from_response es Dashboard.mount c eq_refl Hr) as [Ht Hiff].
  pose proof (profile_from_response es Dashboard.mount c phase_inv_mount Hr)
    as Hp.
  repeat split; try assumption; apply Hiff.
Qed.

Lemma state_holds_the_responses_witness :
  tickets (Dashboard.st sample_dash) = sample_tickets /\
  profile (Dashboard.st sample_dash) =
    Some {| profile_id := lit "u1"; name := lit "Ada"; role := lit "agent" |}.
Proof.
  destruct (state_holds_the_responses sample_events sample_dash eq_refl)
    as [Ht [_ Hp]].
  split; [exact Ht | exact Hp].
Defined.

(** ** Where a ticket row leads *)

(** Two rendered rows lead to the same destination exactly when their
    tickets have the same id, and a row leads where the "Create Ticket" tile
    leads exactly when its ticket's id is the string "new". *)
Theorem row_destination_identifies_ticket (t1 t2 : Ticket) (r1 r2 : RowView) :
  render_row t1 = Ok r1 ->
  render_row t2 = Ok r2 ->
  (row_onClick r1 = row_onClick r2 <-> id t1 = id t2) /\
  (row_onClick r1 = lit "/tickets/new" <-> id t1 = lit "new") /\
  row_onClick r1 <> lit "/tickets" /\
  row_onClick r1 <> lit "/admin" /\
  row_onClick r1 <> lit "/login".
Proof.
  rewrite !render_row_ok. intros H1 H2.
  injection H1 as <-. injection H2 as <-. unfold row_of. cbn [row_onClick].
  split; [|split; [|repeat split]].
  - split; [apply app_inv_head | intros ->; reflexivity].
  - change (lit "/tickets/new") with (lit "/tickets/" ++ lit "new").
    split; [apply app_inv_head | intros ->; reflexivity].
  - intros H. apply (f_equal (@length N)) in H.
    rewrite length_app in H. simpl in H. lia.
  - intros H. simpl in H. discriminate H.
  - intros H. simpl in H. discriminate H.
Qed.

Lemma row_destination_identifies_ticket_witness :
  render_row ticket_named_new = Ok (row_of ticket_named_new) /\
  row_onClick (row_of ticket_named_new) = lit "/tickets/new".
Proof.
  split; [reflexivity|].
  apply (proj1 (proj2 (row_destination_identifies_ticket
                         ticket_named_new ticket_named_new
                         (row_of ticket_named_new) (row_of ticket_named_new)
                         eq_refl eq_refl))).
  reflexivity.
Defined.

(** ** Where the dashboard navigates *)

Section DashboardRoutes.

Import Dashboard.

Ltac transition_cases T :=
  destruct T as [r Ha|r Ha|r Ha|r Ha|Hl|Hl|Hl|Hl Ha|i t Hl Hn].

Lemma in_navigate_snoc (l : list Effect) (to to' : jsstring) :
  In (Navigate to) (l ++ [Navigate to']) -> In (Navigate to) l \/ to = to'.
Proof.
  intros H. apply in_app_or in H as [H|[E|[]]]; [left; exact H|].
  right. congruence.
Qed.

Lemma routes_inv_step (c c' : Dash) (e : Event) :
  routes_inv c -> Transition c e c' -> routes_inv c'.
Proof.
  intros [I1 I2] T. unfold fixed_routes in I2.
  transition_cases T; unfold routes_inv, fixed_routes.
  - unfold checkUser_user. destruct (data_user r); simpl; split; auto.
    + intros to H. apply in_app_or in H as [H|[E|[]]];
        [apply I2, H | discriminate E].
    + intros to H. apply in_navigate_snoc in H as [H| ->];
        [apply I2, H | left; simpl; auto].
  - simpl. split; assumption.
  - simpl. split; [discriminate|].
    intros to H. left. destruct (I2 to H) as [Hf|[t [Hin _]]]; [exact Hf|].
    rewrite (I1 Ha) in Hin. destruct Hin.
  - simpl. split; [exact I1|].
    intros to H. apply in_app_or in H as [H|[E|[]]]; [|discriminate E].
    apply in_navigate_snoc in H as [H| ->];
      [apply I2, H | left; simpl; auto].
  - simpl. split; [exact I1|].
    intros to H. apply in_app_or in H as [H|[E|[]]];
      [apply I2, H | discriminate E].
  - simpl. split; [exact I1|].
    intros to H. apply in_navigate_snoc in H as [H| ->];
      [apply I2, H | left; simpl; auto].
  - simpl. split; [exact I1|].
    intros to H. apply in_navigate_snoc in H as [H| ->];
      [apply I2, H | left; simpl; auto].
  - simpl. split; [exact I1|].
    intros to H. apply in_navigate_snoc in H as [H| ->];
      [apply I2, H | left; simpl; auto 6].
  - simpl. split; [exact I1|].
    intros to H. apply in_navigate_snoc in H as [H| ->];
      [apply I2, H |].
    right. exists t. split; [|reflexivity].
    apply nth_error_In with (n := i). exact Hn.
Qed.

End DashboardRoutes.

(** In every run from mount, each destination the dashboard has navigated
    to is "/login", "/tickets/new", "/tickets" or "/admin", or is "/tickets/"
    followed by the id of a ticket in the list it holds. *)
Theorem navigation_destinations
    (es : list Dashboard.Event) (c : Dashboard.Dash) (to : jsstring) :
  Dashboard.run Dashboard.mount es = Some c ->
  In (Navigate to) (Dashboard.log c) ->
  In to fixed_routes \/
  exists t, In t (tickets (Dashboard.st c)) /\ to = lit "/tickets/" ++ id t.
Proof.
  intros Hr.
  assert (I : routes_inv c).
  { apply (run_invariant routes_inv routes_inv_step es Dashboard.mount c);
      [|exact Hr].
    split; [reflexivity|].
    intros to' H. simpl in H. destruct H as [H|[H|[]]]; discriminate H. }
  apply I.
Qed.

Lemma navigation_destinations_witness :
  In (lit "/admin") fixed_routes \/
  exists t, In t (tickets (Dashboard.st sample_admin_dash)) /\
            lit "/admin" = lit "/tickets/" ++ id t.
Proof.
  apply (navigation_destinations sample_admin_events sample_admin_dash).
  - vm_compute. reflexivity.
  - vm_compute. do 3 right. left. reflexivity.
Defined.

(** ** Runs of the landing page *)

Lemma index_run_from (es : list Index.Event) :
  forall c c',
    Index.run c es = Some c' <->
    (index_resolutions es <= (if Index.awaits_user c then 1 else 0))%nat /\
    c' = {| Index.awaits_user :=
              Index.awaits_user c && Nat.eqb (index_resolutions es) 0;
            Index.log := Index.log c ++ flat_map index_effects_of es |}.
Proof.
  unfold index_resolutions.
  induction es as [|e es IH]; intros [au lg] c'.
  - simpl. rewrite andb_true_r, app_nil_r. split.
    + intros H. injection H as <-. split; [lia | reflexivity].
    + intros [_ ->]. reflexivity.
  - destruct e as [r| |].
    + simpl Index.run. simpl filter. simpl length. simpl Index.awaits_user.
      destruct au.
      * rewrite IH. unfold Index.checkUser_user. simpl.
        destruct (truthy (data_user r)); simpl;
          rewrite <- ?app_assoc, ?app_nil_r; simpl;
          (split; intros [Hn ->]; (split; [lia | reflexivity])).
      * split; [discriminate | intros [Hn _]; lia].
    + simpl Index.run. rewrite IH. simpl.
      rewrite <- app_assoc. reflexivity.
    + simpl Index.run. rewrite IH. simpl.
      rewrite <- app_assoc. reflexivity.
Qed.

(** The landing page's runs, completely: a list of events is possible from
    mount exactly when it holds at most one session response; the effects
    are then the session lookup followed, event by event, by a navigation to
    "/dashboard" for a response with a user, nothing for one without, and
    the clicked destination for a click.  So the page sends no other
    request, and redirects to the dashboard even after the visitor has
    clicked elsewhere. *)
Theorem index_run_trace (es : list Index.Event) (c : Index.Landing) :
  Index.run Index.mount es = Some c <->
  (index_resolutions es <= 1)%nat /\
  c = {| Index.awaits_user := Nat.eqb (index_resolutions es) 0;
         Index.log := Issue GetUser :: flat_map index_effects_of es |}.
Proof. apply (index_run_from es Index.mount c). Qed.

Lemma index_run_trace_witness :
  Index.run Index.mount
    [Index.ClickSignIn;
     Index.UserResolved
       {| data_user := Some {| user_id := lit "u1" |}; user_error := None |}]
  = Some {| Index.awaits_user := false;
            Index.log := [Issue GetUser; Navigate (lit "/login");
                          Navigate (lit "/dashboard")] |}.
Proof.
  apply (proj2 (index_run_trace
                  [Index.ClickSignIn;
                   Index.UserResolved
                     {| data_user := Some {| user_id := lit "u1" |};
                        user_error := None |}] _)).
  split; [vm_compute; lia | reflexivity].
Defined.
